(** * MCP connection and tool orchestration layer: a shallow embedding

    The development follows the TypeScript sources of the client:

    - [ServerManager]  : [ServerSideMCPManager] (the server-side registry of
                         stdio sessions),
    - [BrowserClient]  : [MCPClient] and [MCPClientManager]
                         (src/lib/mcp/browser-client.ts),
    - [Bridge]         : [BridgeMCPClient] (src/lib/mcp/bridge-client.ts),
    - [Store]          : the MCP actions of the zustand store
                         (src/store/index.ts and its later revision).

    Asynchronous methods are modelled sequentially: an [await] is the point
    where the outside world answers.  The outside world is an oracle that maps
    the history of calls issued so far and the present call to its outcome, and
    every call crossing the boundary is appended to that history, so that
    "no call was attempted" is a statement about the history.  Console output
    is not part of the model. *)

From Stdlib Require Import ZArith String List Bool Lia.
From stdpp Require Import base tactics option list strings pretty.

Local Open Scope string_scope.
Local Open Scope list_scope.

(** ** JavaScript values and control flow *)

(** A JavaScript [Error]; only its [message] is ever inspected. *)
Record Error : Type := MkError { message : string }.

(** Outcome of an evaluation: a value, or a thrown error. *)
Inductive Result (A : Type) : Type :=
| Ok (a : A)
| Throw (e : Error).
Arguments Ok {A} a.
Arguments Throw {A} e.

Definition is_ok {A} (r : Result A) : bool :=
  match r with Ok _ => true | Throw _ => false end.

(** Parsed JSON documents. *)
#[local] Set Warnings "-register-all".
Inductive JSON : Type :=
| JNull
| JBool (b : bool)
| JNum (n : Z)
| JStr (s : string)
| JArr (items : list JSON)
| JObj (fields : list (string * JSON)).

(** Computations over a mutable state [S] that may throw.  Effects made
    before a throw persist, as they do in JavaScript. *)
Definition M (S A : Type) : Type := S -> Result A * S.

Definition ret {S A} (a : A) : M S A := fun s => (Ok a, s).

Definition throw {S A} (e : Error) : M S A := fun s => (Throw e, s).

Definition bind {S A B} (c : M S A) (k : A -> M S B) : M S B :=
  fun s => match c s with
           | (Ok a, s') => k a s'
           | (Throw e, s') => (Throw e, s')
           end.

(** [try { body } catch (error) { handler }] *)
Definition try_catch {S A} (body : M S A) (handler : Error -> M S A) : M S A :=
  fun s => match body s with
           | (Ok a, s') => (Ok a, s')
           | (Throw e, s') => handler e s'
           end.

(** [try { body } finally { cleanup }], for a cleanup that does not throw. *)
Definition try_finally {S A} (body : M S A) (cleanup : S -> S) : M S A :=
  fun s => let '(r, s') := body s in (r, cleanup s').

Definition gets {S A} (f : S -> A) : M S A := fun s => (Ok (f s), s).

Definition modify {S} (f : S -> S) : M S unit := fun s => (Ok tt, f s).

Declare Scope js_scope.
Delimit Scope js_scope with js.
Notation "'let*' x ':=' c1 'in' c2" :=
  (bind c1 (fun x => c2))
  (at level 10, x pattern, c1 at level 100, c2 at level 200) : js_scope.
Notation "c1 ';;' c2" :=
  (bind c1 (fun _ => c2))
  (at level 100, c2 at level 200, right associativity) : js_scope.

(** ** The JavaScript [Map] with string keys

    A [Map] iterates its entries in insertion order; [set] on a key already
    present replaces the value where it stands; [delete] removes the entry. *)
Module JsMap.

Definition t (V : Type) : Type := list (string * V).

Definition empty {V} : t V := [].

Fixpoint get {V} (k : string) (m : t V) : option V :=
  match m with
  | [] => None
  | (k', v) :: rest => if decide (k' = k) then Some v else get k rest
  end.

Fixpoint set {V} (k : string) (v : V) (m : t V) : t V :=
  match m with
  | [] => [(k, v)]
  | (k', v') :: rest =>
      if decide (k' = k) then (k, v) :: rest else (k', v') :: set k v rest
  end.

Definition delete {V} (k : string) (m : t V) : t V :=
  filter (fun e => e.1 <> k) m.

Definition keys {V} (m : t V) : list string := m.*1.

Definition values {V} (m : t V) : list V := m.*2.

(** Keys of a [Map] are pairwise distinct. *)
Definition wf {V} (m : t V) : Prop := NoDup (keys m).

End JsMap.

(** ** [ServerSideMCPManager]: the server-side registry of stdio sessions *)
Module ServerManager.

(** Objects created by [new] ([Client], [StdioClientTransport]) and child
    processes are identified by the order of their allocation. *)
Definition Handle : Type := nat.

Definition Tool : Type := JSON.

(** The argument of [addServer]. *)
Record ServerConfig : Type := {
  config_id : string;
  config_name : string;
  config_command : string;
  config_args : list string;
  config_env : option (list (string * string))
}.

(** [interface MCPServerProcess] *)
Record MCPServerProcess : Type := {
  id : string;
  name : string;
  command : string;
  args : list string;
  process : option Handle;
  client : option Handle;
  transport : option Handle;
  isConnected : bool
}.

(** Calls that leave the manager: methods of the SDK [Client] and of the
    child process. *)
Inductive Call : Type :=
| CallConnect (client transport : Handle) (config : ServerConfig)
| CallClose (client : Handle)
| CallKill (process : Handle)
| CallListTools (client : Handle)
| CallTool (client : Handle) (toolName : string) (arguments : JSON)
| CallListResources (client : Handle).

Definition Trace : Type := list Call.

(** The SDK and the spawned processes.  Each answer may depend on everything
    that was called before.  [listTools] resolves to a response whose [tools]
    property may be missing. *)
Record World : Type := {
  client_connect : Trace -> Handle -> Handle -> ServerConfig -> Result unit;
  client_close : Trace -> Handle -> Result unit;
  process_kill : Trace -> Handle -> Result unit;
  client_listTools : Trace -> Handle -> Result (option (list Tool));
  client_callTool : Trace -> Handle -> string -> JSON -> Result JSON
}.

(** The singleton manager together with the allocation counter and the
    history of outgoing calls. *)
Record State : Type := {
  servers : JsMap.t MCPServerProcess;
  allocated : nat;
  trace : Trace
}.

Definition set_servers (f : JsMap.t MCPServerProcess -> JsMap.t MCPServerProcess)
  (s : State) : State :=
  {| servers := f (servers s); allocated := allocated s; trace := trace s |}.

(** [new C(...)]: a fresh object. *)
Definition new_object : M State Handle :=
  fun s => (Ok (allocated s),
            {| servers := servers s; allocated := S (allocated s); trace := trace s |}).

(** An awaited call: the world answers from the history so far, and the call
    joins the history. *)
Definition call {A} (c : Call) (answer : Trace -> Result A) : M State A :=
  fun s => (answer (trace s),
            {| servers := servers s; allocated := allocated s;
               trace := trace s ++ [c] |}).

Definition not_connected_error : Error :=
  MkError "Server not found or not connected".

(** The test of the loop of [getAllTools]: [server.isConnected && server.client]. *)
Definition usable (server : MCPServerProcess) : bool :=
  isConnected server && bool_decide (is_Some (client server)).

(** The call [getAllTools] issues for one entry of the registry, if any. *)
Definition listTools_call (entry : string * MCPServerProcess) : option Call :=
  if usable entry.2 then CallListTools <$> client entry.2 else None.

Section Manager.
Context (w : World).
Local Open Scope js_scope.

Definition addServer (config : ServerConfig) : M State unit :=
  let serverProcess :=
    {| id := config_id config; name := config_name config;
       command := config_command config; args := config_args config;
       process := None; client := None; transport := None;
       isConnected := false |} in
  try_catch
    (let* transport := new_object in
     let serverProcess :=
       {| id := id serverProcess; name := name serverProcess;
          command := command serverProcess; args := args serverProcess;
          process := process serverProcess; client := client serverProcess;
          transport := Some transport;
          isConnected := isConnected serverProcess |} in
     let* client := new_object in
     call (CallConnect client transport config)
          (fun t => client_connect w t client transport config) ;;
     let serverProcess :=
       {| id := id serverProcess; name := name serverProcess;
          command := command serverProcess; args := args serverProcess;
          process := process serverProcess; client := Some client;
          transport := ServerManager.transport serverProcess;
          isConnected := true |} in
     modify (set_servers (JsMap.set (config_id config) serverProcess)))
    (fun error => throw error).

Definition removeServer (serverId : string) : M State unit :=
  let* server := gets (fun s => JsMap.get serverId (servers s)) in
  match server with
  | None => ret tt
  | Some server =>
      try_catch
        (match client server with
         | Some c => call (CallClose c) (fun t => client_close w t c)
         | None => ret tt
         end ;;
         match process server with
         | Some p => call (CallKill p) (fun t => process_kill w t p)
         | None => ret tt
         end)
        (fun _ => ret tt) ;;
      modify (set_servers (JsMap.delete serverId))
  end.

(** The guard shared by [listTools], [callTool] and [listResources]:
    [!server || !server.client || !server.isConnected]. *)
Definition usable_client (server : option MCPServerProcess) : option Handle :=
  match server with
  | None => None
  | Some server =>
      match client server with
      | None => None
      | Some c => if isConnected server then Some c else None
      end
  end.

Definition listTools (serverId : string) : M State (list Tool) :=
  let* server := gets (fun s => JsMap.get serverId (servers s)) in
  match usable_client server with
  | None => throw not_connected_error
  | Some c =>
      try_catch
        (let* response := call (CallListTools c) (fun t => client_listTools w t c) in
         ret (default [] response))
        (fun error => throw error)
  end.

Definition callTool (serverId toolName : string) (arguments : JSON) : M State JSON :=
  let* server := gets (fun s => JsMap.get serverId (servers s)) in
  match usable_client server with
  | None => throw not_connected_error
  | Some c =>
      try_catch
        (call (CallTool c toolName arguments)
              (fun t => client_callTool w t c toolName arguments))
        (fun error => throw error)
  end.

Definition getServerStatus (serverId : string) (s : State) : bool :=
  match JsMap.get serverId (servers s) with
  | Some server => isConnected server
  | None => false
  end.

(** The [for ... of this.servers] loop of [getAllTools]. *)
Fixpoint getAllTools_loop (entries : list (string * MCPServerProcess))
  (results : list (string * list Tool)) : M State (list (string * list Tool)) :=
  match entries with
  | [] => ret results
  | (serverId, server) :: rest =>
      if usable server then
        let* results :=
          try_catch
            (let* tools := listTools serverId in
             ret (results ++ [(serverId, tools)]))
            (fun _ => ret results) in
        getAllTools_loop rest results
      else getAllTools_loop rest results
  end.

Definition getAllTools : M State (list (string * list Tool)) :=
  let* entries := gets servers in
  getAllTools_loop entries [].

End Manager.

End ServerManager.

(** ** Objects calling the network

    A method runs against the object it is invoked on ([this]) and the
    history of requests sent so far. *)
Inductive Method : Type := GET | POST | HEAD | DELETE.

Record Request : Type := {
  req_method : Method;
  req_url : string;
  req_headers : JsMap.t string;
  req_body : option JSON          (* the value handed to [JSON.stringify] *)
}.

(** A response whose parsed body has type [B]; [json] is the outcome of
    [response.json()]. *)
Record Response (B : Type) : Type := {
  status : Z;
  statusText : string;
  json : Result B
}.
Arguments status {B} _.
Arguments statusText {B} _.
Arguments json {B} _.

(** [response.ok]: the status is in the range 200-299. *)
Definition ok {B} (r : Response B) : bool :=
  (200 <=? status r)%Z && (status r <=? 299)%Z.

Record Env (T : Type) : Type := {
  this : T;
  history : list Request
}.
Arguments this {T} _.
Arguments history {T} _.

Definition set_this {T} (f : T -> T) (s : Env T) : Env T :=
  {| this := f (this s); history := history s |}.

(** [await fetch(...)]: resolves to a response or rejects (network error). *)
Definition fetch {T B} (net : list Request -> Request -> Result (Response B))
  (req : Request) : M (Env T) (Response B) :=
  fun s => (net (history s) req,
            {| this := this s; history := history s ++ [req] |}).

(** [await obj.method(...)] for an object [obj] other than [this].  The
    object after the call is returned next to the result. *)
Definition on {T U A} (obj : U) (m : M (Env U) A) : M (Env T) (U * A) :=
  fun s => match m {| this := obj; history := history s |} with
           | (Ok a, s') =>
               (Ok (this s', a), {| this := this s; history := history s' |})
           | (Throw e, s') =>
               (Throw e, {| this := this s; history := history s' |})
           end.

(** Truthiness of an optional string: [undefined] and [''] are falsy. *)
Definition truthy (o : option string) : bool :=
  match o with
  | Some s => negb (bool_decide (s = EmptyString))
  | None => false
  end.

(** [o || fallback] on optional strings. *)
Definition or_else (o : option string) (fallback : string) : string :=
  match o with
  | Some s => if bool_decide (s = EmptyString) then fallback else s
  | None => fallback
  end.

(** ** src/types/index.ts *)
Module Types.

Inductive Transport : Type := stdio | sse | websocket.

#[global] Instance Transport_eq_dec : EqDecision Transport.
Proof. solve_decision. Defined.

(** [MCPServerConfig], with the fields the later revision of the client and
    of the store read and write ([transport], [url], [headers],
    [description], [capabilities]); an optional property is an [option]. *)
Record MCPServerConfig : Type := {
  id : string;
  name : string;
  transport : option Transport;
  command : option string;
  args : option (list string);
  env : option (JsMap.t string);
  url : option string;
  headers : option (JsMap.t string);
  description : option string;
  isConnected : bool;
  capabilities : option (list string)
}.

(** [{ ...config, isConnected: b }] *)
Definition with_isConnected (b : bool) (c : MCPServerConfig) : MCPServerConfig :=
  {| id := id c; name := name c; transport := transport c;
     command := command c; args := args c; env := env c; url := url c;
     headers := headers c; description := description c;
     isConnected := b; capabilities := capabilities c |}.

(** Two configurations that agree on every property but [isConnected]. *)
Definition same_but_isConnected (a b : MCPServerConfig) : Prop :=
  id a = id b /\ name a = name b /\ transport a = transport b /\
  command a = command b /\ args a = args b /\ env a = env b /\
  url a = url b /\ headers a = headers b /\ description a = description b /\
  capabilities a = capabilities b.

Record MCPTool : Type := {
  tool_name : string;
  tool_description : string;
  tool_inputSchema : option JSON
}.

End Types.

(** ** src/lib/mcp/browser-client.ts *)
Module BrowserClient.

(** A tool as the API route reports it:
    [{ name: string; description?: string; inputSchema?: unknown }]. *)
Record RawTool : Type := {
  raw_name : string;
  raw_description : option string;
  raw_inputSchema : option JSON
}.

(** The parsed body of an API response, seen through the two properties the
    client reads from it: [error] and [tools] (each may be missing). *)
Record Body : Type := {
  body_error : option string;
  body_tools : option (list RawTool)
}.

Record World : Type := {
  encodeURIComponent : string -> string;
  network : list Request -> Request -> Result (Response Body)
}.

(** [class MCPClient] *)
Record MCPClient : Type := {
  config : Types.MCPServerConfig;
  isConnected : bool
}.

(** [class MCPClientManager]: its only field is the [clients] map. *)
Abbreviation MCPClientManager := (JsMap.t MCPClient).

(** [new MCPClient(config)] *)
Definition new_MCPClient (config : Types.MCPServerConfig) : MCPClient :=
  {| config := config; isConnected := false |}.

Definition set_isConnected (b : bool) (c : MCPClient) : MCPClient :=
  {| config := config c; isConnected := b |}.

Definition json_of_strings (l : list string) : JSON := JArr (map JStr l).

Definition json_of_record (r : JsMap.t string) : JSON :=
  JObj (map (fun e => (e.1, JStr e.2)) r).

(** A property whose value is [undefined] is left out by [JSON.stringify]. *)
Definition property {A} (key : string) (to_json : A -> JSON) (o : option A)
  : list (string * JSON) :=
  match o with
  | Some a => [(key, to_json a)]
  | None => []
  end.

Definition content_type_json : JsMap.t string :=
  [("Content-Type", "application/json")].

(** [data.tools.map] on a body without a [tools] array raises a [TypeError]
    (the wording of its message depends on the engine). *)
Definition type_error : Error := MkError "TypeError".

Section Client.
Context (w : World).
Local Open Scope js_scope.

Definition connect_stdio_request (config : Types.MCPServerConfig) : Request :=
  {| req_method := POST;
     req_url := "/api/mcp/servers";
     req_headers := content_type_json;
     req_body :=
       Some (JObj ([("id", JStr (Types.id config));
                    ("name", JStr (Types.name config))]
                   ++ property "command" JStr (Types.command config)
                   ++ property "args" json_of_strings (Types.args config)
                   ++ property "env" json_of_record (Types.env config))) |}.

Definition sse_probe_request (url : string) (config : Types.MCPServerConfig)
  : Request :=
  {| req_method := HEAD;
     req_url := url;
     req_headers :=
       JsMap.set "Accept" "text/event-stream" (default [] (Types.headers config));
     req_body := None |}.

(** The inner [try] block of the SSE branch, without its [catch]. *)
Definition sse_probe (url : string) : M (Env MCPClient) unit :=
  let* config := gets (fun s => config (this s)) in
  let* response := fetch (network w) (sse_probe_request url config) in
  if negb (ok response) && negb (bool_decide (status response = 405%Z)) then
    throw (MkError ("SSE endpoint unavailable: " ++ pretty (status response)))
  else ret tt.

Definition connect : M (Env MCPClient) unit :=
  try_catch
    (let* config := gets (fun s => config (this s)) in
     match Types.transport config with
     | Some Types.stdio =>
         let* response := fetch (network w) (connect_stdio_request config) in
         if negb (ok response) then
           fun s => match json response with
                    | Ok error =>
                        (Throw (MkError (or_else (body_error error)
                                  "Failed to connect to stdio MCP server")), s)
                    | Throw e => (Throw e, s)
                    end
         else ret tt
     | Some Types.sse =>
         if negb (truthy (Types.url config)) then
           throw (MkError "SSE URL is required")
         else
           try_catch (sse_probe (default EmptyString (Types.url config)))
                     (fun fetchError => ret tt)
     | Some Types.websocket =>
         if negb (truthy (Types.url config)) then
           throw (MkError "WebSocket URL is required")
         else
           let url := default EmptyString (Types.url config) in
           if negb (String.prefix "ws://" url) && negb (String.prefix "wss://" url)
           then throw (MkError "WebSocket URL must start with ws:// or wss://")
           else ret tt
     | None => ret tt
     end ;;
     modify (set_this (set_isConnected true)))
    (fun error =>
       modify (set_this (set_isConnected false)) ;;
       throw error).

Definition disconnect_request (config : Types.MCPServerConfig) : Request :=
  {| req_method := DELETE;
     req_url := "/api/mcp/servers?id=" ++ encodeURIComponent w (Types.id config);
     req_headers := [];
     req_body := None |}.

Definition disconnect : M (Env MCPClient) unit :=
  try_catch
    (let* config := gets (fun s => config (this s)) in
     let* _ := fetch (network w) (disconnect_request config) in
     ret tt)
    (fun error => ret tt) ;;
  modify (set_this (set_isConnected false)).

Definition listTools_request (config : Types.MCPServerConfig) : Request :=
  {| req_method := GET;
     req_url := "/api/mcp/tools?serverId=" ++ encodeURIComponent w (Types.id config);
     req_headers := [];
     req_body := None |}.

Definition to_MCPTool (tool : RawTool) : Types.MCPTool :=
  {| Types.tool_name := raw_name tool;
     Types.tool_description := or_else (raw_description tool) EmptyString;
     Types.tool_inputSchema := raw_inputSchema tool |}.

Definition listTools : M (Env MCPClient) (list Types.MCPTool) :=
  try_catch
    (let* config := gets (fun s => config (this s)) in
     let* response := fetch (network w) (listTools_request config) in
     if negb (ok response) then throw (MkError "Failed to list tools")
     else
       match json response with
       | Throw e => throw e
       | Ok data =>
           match body_tools data with
           | Some tools => ret (map to_MCPTool tools)
           | None => throw type_error
           end
       end)
    (fun error => throw error).

Definition getConnectionStatus (c : MCPClient) : bool := isConnected c.

Definition new_MCPClientManager : MCPClientManager := JsMap.empty.

Definition addServer (config : Types.MCPServerConfig)
  : M (Env MCPClientManager) unit :=
  let client := new_MCPClient config in
  let* (client, _) := on client connect in
  modify (set_this (JsMap.set (Types.id config) client)).

Definition removeServer (serverId : string) : M (Env MCPClientManager) unit :=
  let* client := gets (fun s => JsMap.get serverId (this s)) in
  match client with
  | Some client =>
      let* _ := on client disconnect in
      modify (set_this (JsMap.delete serverId))
  | None => ret tt
  end.

Definition getClient (serverId : string) (m : MCPClientManager)
  : option MCPClient :=
  JsMap.get serverId m.

(** What the [catch] block of [getServerTools] returns. *)
Definition demo_tools (serverId : string) : list string :=
  if bool_decide (serverId = "demo-server-1") then
    ["file_read"; "file_write"; "file_list"; "dir_create"; "search_files"]
  else if bool_decide (serverId = "demo-server-2") then
    ["web_scrape"; "api_call"; "http_request"; "json_parse"; "url_validate"]
  else [].

Definition getServerTools (serverId : string)
  : M (Env MCPClientManager) (list string) :=
  let* client := gets (fun s => JsMap.get serverId (this s)) in
  match client with
  | None => ret []
  | Some client =>
      if negb (getConnectionStatus client) then ret []
      else
        try_catch
          (let* (_, tools) := on client listTools in
           ret (map Types.tool_name tools))
          (fun error => ret (demo_tools serverId))
  end.

End Client.

End BrowserClient.

(** ** src/lib/mcp/bridge-client.ts *)
Module Bridge.

(** [class BridgeMCPClient] *)
Record BridgeMCPClient : Type := {
  bridgeUrl : string;
  isConnected : bool
}.

(** [new BridgeMCPClient(bridgeUrl = 'http://localhost:3001')] *)
Definition new_BridgeMCPClient (bridgeUrl : option string) : BridgeMCPClient :=
  {| bridgeUrl := default "http://localhost:3001" bridgeUrl;
     isConnected := false |}.

Definition set_isConnected (b : bool) (c : BridgeMCPClient) : BridgeMCPClient :=
  {| bridgeUrl := bridgeUrl c; isConnected := b |}.

(** The bridge server: answers with arbitrary JSON documents. *)
Definition World : Type := list Request -> Request -> Result (Response JSON).

Definition content_type_json : JsMap.t string :=
  [("Content-Type", "application/json")].

Definition getDemoAnalysis (projectPath : string) : JSON :=
  JObj [
    ("path", JStr projectPath);
    ("type", JStr "Demo Analysis");
    ("language", JStr "Multiple");
    ("framework", JStr "Modern Web Stack");
    ("files", JArr [JStr "src/"; JStr "package.json"; JStr "README.md";
                    JStr "tsconfig.json"]);
    ("dependencies", JObj [("react", JStr "^18.0.0");
                           ("next", JStr "^14.0.0");
                           ("typescript", JStr "^5.0.0")]);
    ("structure", JObj [
       ("src/", JObj [("components/", JObj [("type", JStr "directory")]);
                      ("pages/", JObj [("type", JStr "directory")]);
                      ("utils/", JObj [("type", JStr "directory")])]);
       ("package.json", JObj [("type", JStr "file"); ("size", JNum 1024)]);
       ("README.md", JObj [("type", JStr "file"); ("size", JNum 2048)])]);
    ("note", JStr "This is demo data. Start local bridge server for real analysis.")
  ].

Definition getDemoFileList (dirPath : string) : JSON :=
  JObj [
    ("files", JArr [
       JObj [("name", JStr "src"); ("type", JStr "directory");
             ("path", JStr (dirPath ++ "/src"))];
       JObj [("name", JStr "package.json"); ("type", JStr "file");
             ("path", JStr (dirPath ++ "/package.json")); ("size", JNum 1024)];
       JObj [("name", JStr "README.md"); ("type", JStr "file");
             ("path", JStr (dirPath ++ "/README.md")); ("size", JNum 2048)];
       JObj [("name", JStr "tsconfig.json"); ("type", JStr "file");
             ("path", JStr (dirPath ++ "/tsconfig.json")); ("size", JNum 512)]]);
    ("note", JStr "Demo file listing. Start local bridge server for real data.")
  ].

Definition getDemoFileContent (filePath : string) : JSON :=
  JObj [
    ("content", JStr ("// Demo content for " ++ filePath ++ "
This is simulated file content.
Start the local bridge server to read real files.

Bridge Server Setup:
1. Run: node local-mcp-bridge.js
2. Bridge URL: http://localhost:3001
3. Refresh this page"));
    ("path", JStr filePath);
    ("note", JStr "Demo content. Start local bridge server for real file access.")
  ].

(** The three operations of the file-operations endpoint. *)
Inductive Operation : Type := analyze_project | list_files | read_file.

Definition operation_name (op : Operation) : string :=
  match op with
  | analyze_project => "analyze_project"
  | list_files => "list_files"
  | read_file => "read_file"
  end.

Section Client.
Context (w : World).
Local Open Scope js_scope.

Definition health_request (c : BridgeMCPClient) : Request :=
  {| req_method := GET;
     req_url := bridgeUrl c ++ "/health";
     req_headers := content_type_json;
     req_body := None |}.

(** The [try] block either returns [true] from the method or falls through
    (also after a caught error) to the two statements that follow it. *)
Definition checkConnection : M (Env BridgeMCPClient) bool :=
  let* returned :=
    try_catch
      (let* c := gets this in
       let* response := fetch w (health_request c) in
       if ok response then
         modify (set_this (set_isConnected true)) ;; ret (Some true)
       else ret None)
      (fun error => ret None) in
  match returned with
  | Some b => ret b
  | None => modify (set_this (set_isConnected false)) ;; ret false
  end.

Definition operation_request (c : BridgeMCPClient) (op : Operation)
  (path : string) : Request :=
  {| req_method := POST;
     req_url := bridgeUrl c ++ "/api/mcp/file-operations";
     req_headers := content_type_json;
     req_body := Some (JObj [("operation", JStr (operation_name op));
                             ("path", JStr path)]) |}.

(** The [try] block shared, up to the operation name, by [analyzeProject],
    [listFiles] and [readFile]. *)
Definition bridge_request (op : Operation) (path : string)
  : M (Env BridgeMCPClient) JSON :=
  let* c := gets this in
  let* response := fetch w (operation_request c op path) in
  if negb (ok response) then
    throw (MkError ("Bridge request failed: " ++ pretty (status response)))
  else
    match json response with
    | Ok data => ret data
    | Throw e => throw e
    end.

Definition analyzeProject (projectPath : string) : M (Env BridgeMCPClient) JSON :=
  let* connected := gets (fun s => isConnected (this s)) in
  if negb connected then ret (getDemoAnalysis projectPath)
  else
    try_catch (bridge_request analyze_project projectPath)
              (fun error => ret (getDemoAnalysis projectPath)).

Definition listFiles (dirPath : string) : M (Env BridgeMCPClient) JSON :=
  let* connected := gets (fun s => isConnected (this s)) in
  if negb connected then ret (getDemoFileList dirPath)
  else
    try_catch (bridge_request list_files dirPath)
              (fun error => ret (getDemoFileList dirPath)).

Definition readFile (filePath : string) : M (Env BridgeMCPClient) JSON :=
  let* connected := gets (fun s => isConnected (this s)) in
  if negb connected then ret (getDemoFileContent filePath)
  else
    try_catch (bridge_request read_file filePath)
              (fun error => ret (getDemoFileContent filePath)).

Definition getConnectionStatus (c : BridgeMCPClient) : bool := isConnected c.

(** The method serving an operation of the endpoint. *)
Definition operation (op : Operation) : string -> M (Env BridgeMCPClient) JSON :=
  match op with
  | analyze_project => analyzeProject
  | list_files => listFiles
  | read_file => readFile
  end.

End Client.

(** The private demo method behind an operation. *)
Definition synthetic (op : Operation) : string -> JSON :=
  match op with
  | analyze_project => getDemoAnalysis
  | list_files => getDemoFileList
  | read_file => getDemoFileContent
  end.

(** [hay] has [needle] as a substring. *)
Fixpoint contains (needle hay : string) : bool :=
  String.prefix needle hay ||
  match hay with
  | EmptyString => false
  | String _ rest => contains needle rest
  end.

(** A note that tells the reader the data is demo data. *)
Definition says_demo (note : string) : bool :=
  contains "demo" note || contains "Demo" note.

(** [obj.key] on a parsed document. *)
Definition property (key : string) (doc : JSON) : option JSON :=
  match doc with
  | JObj fields => JsMap.get key fields
  | _ => None
  end.

End Bridge.

(** ** The MCP actions of the store (src/store/index.ts) *)
Module Store.

(** The part of [AppState] the MCP actions read and write. *)
Record AppState : Type := {
  isLoading : bool;
  error : option string;
  mcpClientManager : BrowserClient.MCPClientManager;
  mcpServers : list Types.MCPServerConfig;
  availableTools : list string
}.

Definition set_isLoading (b : bool) (s : AppState) : AppState :=
  {| isLoading := b; error := error s;
     mcpClientManager := mcpClientManager s; mcpServers := mcpServers s;
     availableTools := availableTools s |}.

Definition set_error (e : option string) (s : AppState) : AppState :=
  {| isLoading := isLoading s; error := e;
     mcpClientManager := mcpClientManager s; mcpServers := mcpServers s;
     availableTools := availableTools s |}.

Definition set_mcpClientManager (m : BrowserClient.MCPClientManager)
  (s : AppState) : AppState :=
  {| isLoading := isLoading s; error := error s;
     mcpClientManager := m; mcpServers := mcpServers s;
     availableTools := availableTools s |}.

Definition set_mcpServers (l : list Types.MCPServerConfig) (s : AppState)
  : AppState :=
  {| isLoading := isLoading s; error := error s;
     mcpClientManager := mcpClientManager s; mcpServers := l;
     availableTools := availableTools s |}.

Definition set_availableTools (l : list string) (s : AppState) : AppState :=
  {| isLoading := isLoading s; error := error s;
     mcpClientManager := mcpClientManager s; mcpServers := mcpServers s;
     availableTools := l |}.

(** [set({ ... })] *)
Definition set (f : AppState -> AppState) : M (Env AppState) unit :=
  modify (set_this f).

(** A method of [get().mcpClientManager]: the manager is one object, so what
    the method did to it stays done when the method throws. *)
Definition on_manager {A} (m : M (Env BrowserClient.MCPClientManager) A)
  : M (Env AppState) A :=
  fun s =>
    let '(r, s') := m {| this := mcpClientManager (this s);
                         history := history s |} in
    (r, {| this := set_mcpClientManager (this s') (this s);
           history := history s' |}).

(** The list the store falls back to when connected servers report no tool. *)
Definition simulated_tools : list string :=
  ["file_read"; "file_write"; "file_list"; "dir_create"; "search_files";
   "web_scrape"; "api_call"; "data_analysis"; "image_process"; "pdf_extract";
   "json_parse"; "csv_read"; "excel_read"; "sql_query"; "http_request";
   "text_summarize"; "translate"; "sentiment_analysis"; "keyword_extract";
   "regex_match";
   "math_calculate"; "date_format"; "string_process"; "hash_generate";
   "encode_decode";
   "git_status"; "git_commit"; "git_push"; "git_pull"; "git_branch";
   "docker_run"; "docker_build"; "process_list"; "system_info"; "disk_usage";
   "network_ping"; "port_scan"; "dns_lookup"; "ssl_check"; "url_validate";
   "email_send"; "sms_send"].

Section Actions.
Context (w : BrowserClient.World).
Local Open Scope js_scope.

(** The [for (const server of mcpServers)] loop of [refreshMCPTools]. *)
Fixpoint refreshMCPTools_loop (servers : list Types.MCPServerConfig)
  (totalTools : list string) : M (Env AppState) (list string) :=
  match servers with
  | [] => ret totalTools
  | server :: rest =>
      if Types.isConnected server then
        let* totalTools :=
          try_catch
            (let* serverTools :=
               on_manager (BrowserClient.getServerTools w (Types.id server)) in
             ret (totalTools ++ serverTools))
            (fun error => ret totalTools) in
        refreshMCPTools_loop rest totalTools
      else refreshMCPTools_loop rest totalTools
  end.

Definition refreshMCPTools : M (Env AppState) unit :=
  try_catch
    (let* mcpServers := gets (fun s => mcpServers (this s)) in
     let* totalTools := refreshMCPTools_loop mcpServers [] in
     let totalTools :=
       if existsb Types.isConnected mcpServers && (length totalTools =? 0)%nat
       then simulated_tools else totalTools in
     set (set_availableTools totalTools))
    (fun error => set (set_availableTools [])).

(** [addMCPServer] of the later revision: validation and the duplicate check
    come before the [try]. *)
Definition addMCPServer (config : Types.MCPServerConfig) : M (Env AppState) unit :=
  if bool_decide (Types.id config = EmptyString)
     || bool_decide (Types.name config = EmptyString)
  then throw (MkError "Server ID and name are required")
  else if bool_decide (Types.transport config = Some Types.stdio)
          && negb (truthy (Types.command config))
  then throw (MkError "Command is required for stdio transport")
  else if (bool_decide (Types.transport config = Some Types.sse)
           || bool_decide (Types.transport config = Some Types.websocket))
          && negb (truthy (Types.url config))
  then throw (MkError "URL is required for SSE/WebSocket transport")
  else
    let* existingServer :=
      gets (fun s => find (fun s => bool_decide (Types.id s = Types.id config))
                          (mcpServers (this s))) in
    match existingServer with
    | Some _ =>
        throw (MkError ("Server with ID '" ++ Types.id config ++ "' already exists"))
    | None =>
        try_finally
          (try_catch
             (set (fun s => set_error None (set_isLoading true s)) ;;
              on_manager (BrowserClient.addServer w config) ;;
              let* servers := gets (fun s => mcpServers (this s)) in
              set (set_mcpServers
                     (servers ++ [Types.with_isConnected true config])) ;;
              refreshMCPTools)
             (fun error =>
                set (set_error (Some (message error))) ;;
                throw error))
          (set_this (set_isLoading false))
    end.

Definition removeMCPServer (serverId : string) : M (Env AppState) unit :=
  try_catch
    (on_manager (BrowserClient.removeServer w serverId) ;;
     let* servers := gets (fun s => mcpServers (this s)) in
     set (set_mcpServers
            (List.filter (fun s => negb (bool_decide (Types.id s = serverId)))
                         servers)) ;;
     refreshMCPTools)
    (fun error => set (set_error (Some (message error)))).

Definition toggleMCPServer (serverId : string) : M (Env AppState) unit :=
  let* servers := gets (fun s => mcpServers (this s)) in
  let mcpServers :=
    map (fun server =>
           if bool_decide (Types.id server = serverId)
           then Types.with_isConnected (negb (Types.isConnected server)) server
           else server)
        servers in
  set (set_mcpServers mcpServers) ;;
  refreshMCPTools.

End Actions.

End Store.

(** ** Concrete inputs *)
Module Scenario.

Import ServerManager.

Definition files_config : ServerConfig :=
  {| config_id := "files"; config_name := "File System Tools";
     config_command := "python";
     config_args := ["/path/to/filesystem-mcp.py"];
     config_env := None |}.

Definition files_config_again : ServerConfig :=
  {| config_id := "files"; config_name := "File System Tools (second)";
     config_command := "node";
     config_args := ["filesystem-mcp.js"];
     config_env := None |}.

Definition echo_tool : Tool :=
  JObj [("name", JStr "echo"); ("description", JStr "Echo the input")].

(** Every process starts and every call is answered. *)
Definition healthy : World :=
  {| client_connect := fun _ _ _ _ => Ok tt;
     client_close := fun _ _ => Ok tt;
     process_kill := fun _ _ => Ok tt;
     client_listTools := fun _ _ => Ok (Some [echo_tool]);
     client_callTool := fun _ _ _ arguments => Ok arguments |}.

(** No process can be spawned. *)
Definition spawn_fails : World :=
  {| client_connect := fun _ _ _ _ => Throw (MkError "spawn python ENOENT");
     client_close := fun _ _ => Ok tt;
     process_kill := fun _ _ => Ok tt;
     client_listTools := fun _ _ => Ok (Some [echo_tool]);
     client_callTool := fun _ _ _ arguments => Ok arguments |}.

(** The manager right after [getInstance()]. *)
Definition fresh : State := {| servers := JsMap.empty; allocated := 0; trace := [] |}.

(** The manager after one successful [addServer(files_config)]. *)
Definition with_files : State := (addServer healthy files_config fresh).2.

(** A registry holding one connected and one disconnected session. *)
Definition mixed : State :=
  {| servers :=
       [("files", {| id := "files"; name := "File System Tools";
                     command := "python"; args := [];
                     process := None; client := Some 1; transport := Some 0;
                     isConnected := true |});
        ("web", {| id := "web"; name := "Web & API Tools";
                   command := "python"; args := [];
                   process := None; client := Some 3; transport := Some 2;
                   isConnected := false |})];
     allocated := 4;
     trace := [] |}.

End Scenario.

(** Concrete inputs for the browser client and the store. *)
Module BrowserScenario.

Import BrowserClient.

Definition events_server : Types.MCPServerConfig :=
  {| Types.id := "demo-server-2"; Types.name := "Web & API Tools";
     Types.transport := Some Types.sse;
     Types.command := None; Types.args := None; Types.env := None;
     Types.url := Some "http://localhost:8080/mcp/events";
     Types.headers := None;
     Types.description := Some "Web scraping and API interactions";
     Types.isConnected := false;
     Types.capabilities := Some ["web_scrape"; "api_call"; "http_request"] |}.

Definition files_server : Types.MCPServerConfig :=
  {| Types.id := "demo-server-1"; Types.name := "File System Tools";
     Types.transport := Some Types.stdio;
     Types.command := Some "python";
     Types.args := Some ["/path/to/filesystem-mcp.py"]; Types.env := None;
     Types.url := None; Types.headers := None;
     Types.description := Some "Local file operations and analysis";
     Types.isConnected := true;
     Types.capabilities := Some ["file_read"; "file_write"; "dir_list"] |}.

(** No server listens: every request is rejected. *)
Definition offline : World :=
  {| encodeURIComponent := fun s => s;
     network := fun _ _ => Throw (MkError "Failed to fetch") |}.

(** Every request is answered with status 500 and an empty body. *)
Definition failing : World :=
  {| encodeURIComponent := fun s => s;
     network := fun _ _ =>
       Ok {| status := 500; statusText := "Internal Server Error";
             json := Ok {| body_error := None; body_tools := None |} |} |}.

(** A manager holding a connected client for "demo-server-1" and a client
    for "demo-server-2" that is not connected. *)
Definition two_clients : Env MCPClientManager :=
  {| this := [("demo-server-1", {| config := files_server; isConnected := true |});
              ("demo-server-2", {| config := events_server; isConnected := false |})];
     history := [] |}.

(** The store as it is initialised, with the manager above. *)
Definition store : Env Store.AppState :=
  {| this := {| Store.isLoading := false; Store.error := None;
                Store.mcpClientManager := this two_clients;
                Store.mcpServers := [files_server; events_server];
                Store.availableTools := [] |};
     history := [] |}.

End BrowserScenario.

(** Concrete inputs for the bridge client. *)
Module BridgeScenario.

Import Bridge.

(** No bridge server is running. *)
Definition unreachable : World := fun _ _ => Throw (MkError "Failed to fetch").

(** A bridge server that answers every request with status 503. *)
Definition unavailable : World :=
  fun _ _ => Ok {| status := 503; statusText := "Service Unavailable";
                   json := Ok JNull |}.

(** A bridge server that answers every request with [{ "real": true }]. *)
Definition serving : World :=
  fun _ _ => Ok {| status := 200; statusText := "OK";
                   json := Ok (JObj [("real", JBool true)]) |}.

(** The client as constructed: the cached flag says unreachable. *)
Definition initial : Env BridgeMCPClient :=
  {| this := new_BridgeMCPClient None; history := [] |}.

(** The client after a health check that found the bridge. *)
Definition checked : Env BridgeMCPClient :=
  {| this := {| bridgeUrl := "http://localhost:3001"; isConnected := true |};
     history := [health_request (new_BridgeMCPClient None)] |}.

End BridgeScenario.

(** ** More of [ServerSideMCPManager] *)
Module ManagerQueries.

Import ServerManager.

(** An element of the array [getAllServers] returns. *)
Record ServerInfo : Type := {
  info_id : string;
  info_name : string;
  info_isConnected : bool
}.

Definition getAllServers (s : State) : list ServerInfo :=
  map (fun server =>
         {| info_id := id server; info_name := name server;
            info_isConnected := isConnected server |})
      (JsMap.values (servers s)).

(** The client handles held by the sessions of a registry. *)
Definition clients (m : JsMap.t MCPServerProcess) : list Handle :=
  omap (fun entry => client entry.2) m.

(** A session as [addServer] stores it: under its own id, connected, without
    a process handle, with a client and a transport created before. *)
Definition session_ok (allocated : nat) (entry : string * MCPServerProcess) : Prop :=
  id entry.2 = entry.1 /\
  isConnected entry.2 = true /\
  process entry.2 = None /\
  exists c t, client entry.2 = Some c /\ transport entry.2 = Some t /\
              c < allocated /\ t < allocated.

(** The registry of a manager that was only ever changed by its methods. *)
Definition consistent (s : State) : Prop :=
  JsMap.wf (servers s) /\
  Forall (session_ok (allocated s)) (servers s) /\
  NoDup (clients (servers s)).

End ManagerQueries.

(** ** The API routes in front of the manager
    (the handlers of /api/mcp/servers and of /api/mcp/tools) *)
Module ApiRoutes.

Import ServerManager ManagerQueries.

(** [NextResponse.json(body, { status })] *)
Record HttpResponse : Type := {
  http_status : Z;
  http_body : JSON
}.

Definition respond (body : JSON) : HttpResponse :=
  {| http_status := 200; http_body := body |}.

Definition respond_error (status : Z) (text : string) : HttpResponse :=
  {| http_status := status; http_body := JObj [("error", JStr text)] |}.

Definition success : HttpResponse := respond (JObj [("success", JBool true)]).

(** The body of [POST /api/mcp/servers], seen through the properties the
    handler destructures from it. *)
Record AddServerBody : Type := {
  post_id : option string;
  post_name : option string;
  post_command : option string;
  post_args : option (list string);
  post_env : option (list (string * string))
}.

(** The body of [POST /api/mcp/tools]. *)
Record CallToolBody : Type := {
  post_serverId : option string;
  post_toolName : option string;
  post_arguments : option JSON
}.

(** Truthiness of an optional JSON value. *)
Definition json_truthy (o : option JSON) : bool :=
  match o with
  | None | Some JNull => false
  | Some (JBool b) => b
  | Some (JNum n) => negb (n =? 0)%Z
  | Some (JStr s) => negb (bool_decide (s = EmptyString))
  | Some (JArr _) | Some (JObj _) => true
  end.

Definition info_json (info : ServerInfo) : JSON :=
  JObj [("id", JStr (info_id info)); ("name", JStr (info_name info));
        ("isConnected", JBool (info_isConnected info))].

Definition server_tools_json (entry : string * list Tool) : JSON :=
  JObj [("serverId", JStr entry.1); ("tools", JArr entry.2)].

Section Handlers.
Context (w : World).
Local Open Scope js_scope.

(** /api/mcp/servers, [GET] *)
Definition servers_GET : M State HttpResponse :=
  try_catch
    (let* servers := gets getAllServers in
     ret (respond (JObj [("servers", JArr (map info_json servers))])))
    (fun error => ret (respond_error 500 "Failed to get servers")).

(** /api/mcp/servers, [POST]; [body] is the outcome of [request.json()]. *)
Definition servers_POST (body : Result AddServerBody) : M State HttpResponse :=
  try_catch
    (match body with
     | Throw e => throw e
     | Ok body =>
         if negb (truthy (post_id body)) || negb (truthy (post_name body))
            || negb (truthy (post_command body))
         then ret (respond_error 400 "Missing required fields: id, name, command")
         else
           addServer w
             {| config_id := default EmptyString (post_id body);
                config_name := default EmptyString (post_name body);
                config_command := default EmptyString (post_command body);
                config_args := default [] (post_args body);
                config_env := Some (default [] (post_env body)) |} ;;
           ret success
     end)
    (fun error => ret (respond_error 500 (message error))).

(** /api/mcp/servers, [DELETE]; [serverId] is [url.searchParams.get('id')]. *)
Definition servers_DELETE (serverId : option string) : M State HttpResponse :=
  try_catch
    (if negb (truthy serverId) then ret (respond_error 400 "Server ID is required")
     else
       removeServer w (default EmptyString serverId) ;;
       ret success)
    (fun error => ret (respond_error 500 "Failed to remove server")).

(** /api/mcp/tools, [GET]; [serverId] is [url.searchParams.get('serverId')]. *)
Definition tools_GET (serverId : option string) : M State HttpResponse :=
  try_catch
    (if truthy serverId then
       let* tools := listTools w (default EmptyString serverId) in
       ret (respond (JObj [("tools", JArr tools)]))
     else
       let* allTools := getAllTools w in
       ret (respond (JObj [("servers", JArr (map server_tools_json allTools))])))
    (fun error => ret (respond_error 500 (message error))).

(** /api/mcp/tools, [POST] *)
Definition tools_POST (body : Result CallToolBody) : M State HttpResponse :=
  try_catch
    (match body with
     | Throw e => throw e
     | Ok body =>
         if negb (truthy (post_serverId body)) || negb (truthy (post_toolName body))
         then ret (respond_error 400 "Missing required fields: serverId, toolName")
         else
           let args :=
             if json_truthy (post_arguments body)
             then default (JObj []) (post_arguments body)
             else JObj [] in
           let* result :=
             callTool w (default EmptyString (post_serverId body))
                      (default EmptyString (post_toolName body)) args in
           ret (respond (JObj [("result", result)]))
     end)
    (fun error => ret (respond_error 500 (message error))).

End Handlers.

End ApiRoutes.

(** ** More of [MCPClient] and [MCPClientManager] *)
Module ClientExtras.

Import BrowserClient.

Definition getAllClients (m : MCPClientManager) : list MCPClient := JsMap.values m.

(** The clients of a manager that was only ever changed by its methods:
    unique keys, each client connected and stored under the id of its
    configuration. *)
Definition all_connected (m : MCPClientManager) : Prop :=
  JsMap.wf m /\
  Forall (fun entry => isConnected entry.2 = true /\
                       Types.id (config entry.2) = entry.1) m.

Section Manager.
Context (w : World).
Local Open Scope js_scope.

(** [Array.from(this.clients.values()).map(client => client.disconnect())]:
    the disconnects are started, and so their requests are sent, in the
    iteration order of the map. *)
Fixpoint disconnect_each (clients : list MCPClient)
  : M (Env MCPClientManager) unit :=
  match clients with
  | [] => ret tt
  | client :: rest =>
      let* _ := on client (disconnect w) in
      disconnect_each rest
  end.

Definition disconnectAll : M (Env MCPClientManager) unit :=
  let* clients := gets (fun s => JsMap.values (this s)) in
  disconnect_each clients ;;
  modify (set_this (fun _ => JsMap.empty)).

End Manager.

End ClientExtras.

(** More concrete inputs. *)
Module MoreScenarios.

Import BrowserClient.

Definition socket_server : Types.MCPServerConfig :=
  {| Types.id := "realtime"; Types.name := "Realtime Tools";
     Types.transport := Some Types.websocket;
     Types.command := None; Types.args := None; Types.env := None;
     Types.url := Some "ws://localhost:9000/mcp";
     Types.headers := None; Types.description := None;
     Types.isConnected := false; Types.capabilities := None |}.

Definition read_tool : RawTool :=
  {| raw_name := "file_read"; raw_description := Some "Read a file";
     raw_inputSchema := None |}.

Definition list_tool : RawTool :=
  {| raw_name := "file_list"; raw_description := None;
     raw_inputSchema := None |}.

(** An API that accepts everything and reports two tools for every server. *)
Definition serving : World :=
  {| encodeURIComponent := fun s => s;
     network := fun _ _ =>
       Ok {| status := 200; statusText := "OK";
             json := Ok {| body_error := None;
                           body_tools := Some [read_tool; list_tool] |} |} |}.

(** An API that refuses everything with a reason. *)
Definition refusing : World :=
  {| encodeURIComponent := fun s => s;
     network := fun _ _ =>
       Ok {| status := 500; statusText := "Internal Server Error";
             json := Ok {| body_error := Some "spawn python ENOENT";
                           body_tools := None |} |} |}.

(** A manager as its methods leave it: one connected client. *)
Definition one_client : Env MCPClientManager :=
  {| this := [("demo-server-1",
               {| config := BrowserScenario.files_server; isConnected := true |})];
     history := [] |}.

(** The store with no server configured. *)
Definition empty_store : Env Store.AppState :=
  {| this := {| Store.isLoading := false; Store.error := None;
                Store.mcpClientManager := JsMap.empty;
                Store.mcpServers := [];
                Store.availableTools := [] |};
     history := [] |}.

End MoreScenarios.

(** ** Vocabulary for the store's [addMCPServer] *)
Module StoreChecks.

(** A configuration that passes the three client-side validations. *)
Definition passes_validation (config : Types.MCPServerConfig) : Prop :=
  Types.id config <> EmptyString /\
  Types.name config <> EmptyString /\
  (Types.transport config = Some Types.stdio ->
   truthy (Types.command config) = true) /\
  (Types.transport config = Some Types.sse \/
   Types.transport config = Some Types.websocket ->
   truthy (Types.url config) = true).

(** The ids of the configured servers, in list order. *)
Definition server_ids (s : Store.AppState) : list string :=
  map Types.id (Store.mcpServers s).

End StoreChecks.

(** ** Child processes of the stdio clients

    The manager never holds a process: [process] stays [null], and the child
    of a session is started, and ended, by the SDK inside [client.connect]
    and [client.close].  What the manager can do about a child is to close
    its client.  Whether a [connect] that rejects has left its child running
    is for the SDK to say, like the outcome of the call itself. *)
Module Processes.

Import ServerManager ManagerQueries.

Record ProcessWorld : Type := {
  sdk : World;
  (** a [connect] that rejected left the child it had started running *)
  child_survives_failed_connect : Trace -> Handle -> bool
}.

(** The clients whose child runs, after one more call: a [connect] that
    resolves starts the child of its client, a [connect] that rejects may
    leave one, and [close] ends the child of its client. *)
Definition after_call (pw : ProcessWorld) (before : Trace)
  (running : list Handle) (c : Call) : list Handle :=
  match c with
  | CallConnect client transport config =>
      match client_connect (sdk pw) before client transport config with
      | Ok _ => running ++ [client]
      | Throw _ =>
          if child_survives_failed_connect pw before client
          then running ++ [client] else running
      end
  | CallClose client => filter (fun c' => c' <> client) running
  | _ => running
  end.

Fixpoint replay (pw : ProcessWorld) (before rest : Trace)
  (running : list Handle) : list Handle :=
  match rest with
  | [] => running
  | c :: rest' => replay pw (before ++ [c]) rest' (after_call pw before running c)
  end.

(** The clients whose child runs after the calls of a trace. *)
Definition running (pw : ProcessWorld) (t : Trace) : list Handle :=
  replay pw [] t [].

(** An orphan: a running child whose client no session of the registry
    holds, so that no method of the manager can ever close it. *)
Definition orphans (pw : ProcessWorld) (s : State) : list Handle :=
  filter (fun c => c ∉ clients (servers s)) (running pw (trace s)).


End Processes.

(** Concrete worlds with child processes. *)
Module ProcessScenario.

Import ServerManager Processes.



End ProcessScenario.

(** * Properties *)

(** ** Facts about [JsMap] *)
Section JsMapFacts.
Context {V : Type}.
Implicit Types (k : string) (v : V) (m : JsMap.t V).
Import JsMap.

Lemma jsmap_get_set_eq k (v : V) m : get k (set k v m) = Some v.
Proof.
  induction m as [|[k' v'] m IH]; simpl.
  - by rewrite decide_True.
  - destruct (decide (k' = k)) as [->|Hne]; simpl.
    + by rewrite decide_True.
    + by rewrite decide_False.
Qed.

Lemma jsmap_get_set_ne k k' (v : V) m : k <> k' -> get k' (set k v m) = get k' m.
Proof.
  intros Hne. induction m as [|[k0 v0] m IH]; simpl.
  - by rewrite decide_False.
  - destruct (decide (k0 = k)) as [->|Hk]; simpl.
    + by rewrite !decide_False.
    + destruct (decide (k0 = k')); [done | exact IH].
Qed.

Lemma jsmap_get_delete_eq k (m : t V) : get k (delete k m) = None.
Proof.
  induction m as [|[k' v'] m IH]; [done|].
  unfold delete in *. cbn.
  destruct (decide (k' <> k)) as [Hne|Heq]; cbn.
  - by rewrite decide_False.
  - exact IH.
Qed.

Lemma jsmap_delete_absent k (m : t V) : get k m = None -> delete k m = m.
Proof.
  induction m as [|[k' v'] m IH]; [done|]. cbn.
  destruct (decide (k' = k)) as [->|Hne]; [done|]. intros Hget.
  unfold delete in *. cbn.
  rewrite decide_True by done. f_equal. by apply IH.
Qed.

Lemma jsmap_delete_set k (v : V) m : delete k (set k v m) = delete k m.
Proof.
  induction m as [|[k' v'] m IH]; unfold delete in *; cbn.
  - by rewrite decide_False by (intros H; by apply H).
  - destruct (decide (k' = k)) as [->|Hne]; cbn.
    + by rewrite !decide_False by (intros H; by apply H).
    + rewrite !decide_True by done. f_equal. exact IH.
Qed.

Lemma jsmap_keys_set_present k (v : V) m :
  is_Some (get k m) -> keys (set k v m) = keys m.
Proof.
  unfold keys. induction m as [|[k' v'] m IH]; simpl.
  - intros [? ?]. discriminate.
  - destruct (decide (k' = k)) as [->|Hne]; simpl; [done|].
    intros H. f_equal. by apply IH.
Qed.

Lemma jsmap_get_None_not_key k (m : t V) : get k m = None <-> k ∉ keys m.
Proof.
  unfold keys. induction m as [|[k' v'] m IH]; simpl.
  - split; [intros _; apply not_elem_of_nil | done].
  - rewrite not_elem_of_cons. destruct (decide (k' = k)) as [->|Hne].
    + split; [done | intros [? _]; done].
    + rewrite IH. split; [intros ?; split; [congruence | done] | intros [_ ?]; done].
Qed.

Lemma jsmap_keys_set_absent k (v : V) m :
  get k m = None -> keys (set k v m) = keys m ++ [k].
Proof.
  unfold keys. induction m as [|[k' v'] m IH]; simpl; [done|].
  destruct (decide (k' = k)) as [->|Hne]; simpl; [done|].
  intros H. f_equal. by apply IH.
Qed.

Lemma jsmap_wf_set k (v : V) m : wf m -> wf (set k v m).
Proof.
  intros Hwf. unfold wf. destruct (get k m) as [v0|] eqn:Hget.
  - rewrite jsmap_keys_set_present; [done | by eexists].
  - rewrite jsmap_keys_set_absent by done.
    apply NoDup_app. split_and!; [done | | apply NoDup_singleton].
    intros x Hx Hin. apply list_elem_of_singleton in Hin as ->.
    by apply jsmap_get_None_not_key in Hget.
Qed.

Lemma jsmap_wf_delete k (m : t V) : wf m -> wf (delete k m).
Proof.
  unfold wf, keys, delete. induction m as [|[k' v'] m IH]; [done|].
  cbn. rewrite NoDup_cons. intros [Hnin Hnd].
  destruct (decide (k' <> k)); cbn; [|by apply IH].
  apply NoDup_cons. split; [|by apply IH].
  intros Hin. apply Hnin.
  apply list_elem_of_fmap in Hin as [[k0 v0] [-> Hin]].
  apply list_elem_of_filter in Hin as [_ Hin].
  apply list_elem_of_fmap. by exists (k0, v0).
Qed.

Lemma jsmap_get_elem_of k v m : wf m -> (k, v) ∈ m -> get k m = Some v.
Proof.
  unfold wf, keys. induction m as [|[k' v'] m IH]; cbn.
  - intros _ H. by apply elem_of_nil in H.
  - rewrite NoDup_cons. intros [Hnin Hnd] Hin.
    apply elem_of_cons in Hin as [Heq|Hin].
    + injection Heq as -> ->. by rewrite decide_True.
    + destruct (decide (k' = k)) as [->|Hne]; [|by apply IH].
      exfalso. apply Hnin. apply list_elem_of_fmap. by exists (k, v).
Qed.

Lemma jsmap_get_Some_elem_of k v m : get k m = Some v -> (k, v) ∈ m.
Proof.
  induction m as [|[k' v'] m IH]; cbn; [done|].
  destruct (decide (k' = k)) as [->|Hne].
  - intros [= ->]. by left.
  - intros H. right. by apply IH.
Qed.

Lemma jsmap_get_delete_ne k k' m : k <> k' -> get k' (delete k m) = get k' m.
Proof.
  intros Hne. unfold delete. induction m as [|[k0 v0] m IH]; cbn; [done|].
  destruct (decide (k0 <> k)) as [H0|H0]; cbn.
  - destruct (decide (k0 = k')); [done | exact IH].
  - destruct (decide (k0 = k')) as [->|_]; [|exact IH].
    exfalso. apply H0. congruence.
Qed.

Lemma jsmap_keys_delete k m : keys (delete k m) = filter (fun k' => k' <> k) (keys m).
Proof.
  unfold keys, delete. induction m as [|[k0 v0] m IH]; cbn; [done|].
  destruct (decide (k0 <> k)); cbn; [f_equal|]; exact IH.
Qed.

Lemma jsmap_Forall_set (P : string * V -> Prop) k v m :
  P (k, v) -> Forall P m -> Forall P (set k v m).
Proof.
  intros Hv. induction m as [|[k' v'] m IH]; cbn.
  - intros _. by apply Forall_singleton.
  - rewrite Forall_cons. intros [Hhead Htail].
    destruct (decide (k' = k)); apply Forall_cons; split; try done.
    by apply IH.
Qed.

Lemma jsmap_Forall_delete (P : string * V -> Prop) k m :
  Forall P m -> Forall P (delete k m).
Proof.
  intros Hall. unfold delete. apply Forall_forall.
  intros entry [_ Hentry]%list_elem_of_filter.
  rewrite Forall_forall in Hall. by apply Hall.
Qed.

End JsMapFacts.

(** ** [ServerSideMCPManager] *)
Section ServerManagerSpec.
Import ServerManager.
Context (w : World).

(** Unfolds one layer of the control-flow combinators. *)
Ltac step :=
  unfold addServer, removeServer, listTools, callTool, getAllTools,
    bind, ret, throw, try_catch, gets, modify, call, new_object, set_servers;
  cbn.

(** What [addServer] does when the process starts: the new session, holding
    a fresh client, is written under the id, whatever was there before. *)
Lemma addServer_connected (config : ServerConfig) (s : State) :
  client_connect w (trace s) (S (allocated s)) (allocated s) config = Ok tt ->
  addServer w config s =
    (Ok tt,
     {| servers :=
          JsMap.set (config_id config)
            {| id := config_id config; name := config_name config;
               command := config_command config; args := config_args config;
               process := None; client := Some (S (allocated s));
               transport := Some (allocated s); isConnected := true |}
            (servers s);
        allocated := S (S (allocated s));
        trace := trace s ++ [CallConnect (S (allocated s)) (allocated s) config] |}).
Proof. intros H. step. by rewrite H. Qed.

Lemma addServer_failed (config : ServerConfig) (s : State) (e : Error) :
  client_connect w (trace s) (S (allocated s)) (allocated s) config = Throw e ->
  addServer w config s =
    (Throw e,
     {| servers := servers s;
        allocated := S (S (allocated s));
        trace := trace s ++ [CallConnect (S (allocated s)) (allocated s) config] |}).
Proof. intros H. step. by rewrite H. Qed.


Lemma removeServer_result (serverId : string) (s : State) :
  (removeServer w serverId s).1 = Ok tt /\
  servers (removeServer w serverId s).2 = JsMap.delete serverId (servers s).
Proof.
  step. destruct (JsMap.get serverId (servers s)) as [server|] eqn:Hget; cbn.
  - destruct (client server) as [c|]; cbn.
    + destruct (client_close w (trace s) c); cbn; [|done].
      destruct (process server) as [p|]; cbn; [|done].
      by destruct (process_kill w _ p).
    + destruct (process server) as [p|]; cbn; [|done].
      by destruct (process_kill w _ p).
  - split; [done|]. symmetry. by apply jsmap_delete_absent.
Qed.

(** The [!server || !server.client || !server.isConnected] guard. *)
Lemma usable_client_None (server : option MCPServerProcess) :
  server = None \/ (exists srv, server = Some srv /\ isConnected srv = false) ->
  usable_client server = None.
Proof.
  intros [->|[srv [-> Hflag]]]; [done|]. unfold usable_client.
  rewrite Hflag. by destruct (client srv).
Qed.

(** C1: adding under an id that is already registered.  On the registry that
    holds the session of a first successful [addServer] for the id "files", a
    second [addServer] with the same id is not rejected: it resolves, the
    entry now holds another session (another client, another command), and
    the client of the first session was never closed. *)
Theorem addServer_duplicate_id_overwrites :
  let s0 := Scenario.with_files in
  let '(r, s1) := addServer Scenario.healthy Scenario.files_config_again s0 in
  JsMap.get "files" (servers s0) =
    Some {| id := "files"; name := "File System Tools"; command := "python";
            args := ["/path/to/filesystem-mcp.py"]; process := None;
            client := Some 1; transport := Some 0; isConnected := true |} /\
  r = Ok tt /\
  JsMap.get "files" (servers s1) =
    Some {| id := "files"; name := "File System Tools (second)";
            command := "node"; args := ["filesystem-mcp.js"]; process := None;
            client := Some 3; transport := Some 2; isConnected := true |} /\
  JsMap.get "files" (servers s1) <> JsMap.get "files" (servers s0) /\
  trace s1 = [CallConnect 1 0 Scenario.files_config;
              CallConnect 3 2 Scenario.files_config_again].
Proof. vm_compute. by split_and!. Qed.

(** C3: for a server id that is absent from the registry, or whose session
    is not connected, [listTools] and [callTool] throw the not-connected
    error and leave the whole state as it was: nothing was called (the trace
    is unchanged) and the registry, the session's flag included, is
    untouched. *)
Theorem calls_on_unconnected_server_rejected
  (serverId toolName : string) (arguments : JSON) (s : State) :
  JsMap.get serverId (servers s) = None \/
  (exists server, JsMap.get serverId (servers s) = Some server /\
                  isConnected server = false) ->
  listTools w serverId s = (Throw not_connected_error, s) /\
  callTool w serverId toolName arguments s = (Throw not_connected_error, s).
Proof.
  intros H. apply usable_client_None in H. step. by rewrite H.
Qed.


Lemma listTools_usable (serverId : string) (server : MCPServerProcess)
  (c : Handle) (s : State) :
  JsMap.get serverId (servers s) = Some server ->
  isConnected server = true -> client server = Some c ->
  listTools w serverId s =
    (match client_listTools w (trace s) c with
     | Ok response => Ok (default [] response)
     | Throw e => Throw e
     end,
     {| servers := servers s; allocated := allocated s;
        trace := trace s ++ [CallListTools c] |}).
Proof.
  intros Hget Hflag Hclient. step. rewrite Hget. cbn.
  rewrite Hclient, Hflag. cbn. by destruct (client_listTools w (trace s) c).
Qed.

Lemma usable_inv (server : MCPServerProcess) :
  usable server = true ->
  isConnected server = true /\ exists c, client server = Some c.
Proof.
  unfold usable. intros [Hflag Hclient%bool_decide_eq_true]%andb_true_iff.
  split; [done|]. destruct Hclient as [c Hc]. by exists c.
Qed.

Lemma getAllTools_loop_spec (entries : list (string * MCPServerProcess)) :
  forall (acc : list (string * list Tool)) (s : State),
    (forall serverId server,
       (serverId, server) ∈ entries ->
       JsMap.get serverId (servers s) = Some server) ->
    exists new s',
      getAllTools_loop w entries acc s = (Ok (acc ++ new), s') /\
      servers s' = servers s /\
      allocated s' = allocated s /\
      trace s' = trace s ++ omap listTools_call entries /\
      new.*1 `sublist_of` (filter (fun e => usable e.2 = true) entries).*1 /\
      (forall serverId tools,
         (serverId, tools) ∈ new ->
         exists server c t response,
           (serverId, server) ∈ entries /\ usable server = true /\
           client server = Some c /\
           client_listTools w t c = Ok response /\
           tools = default [] response) /\
      (forall serverId server c,
         (serverId, server) ∈ entries -> usable server = true ->
         client server = Some c ->
         (forall t, is_ok (client_listTools w t c) = true) ->
         serverId ∈ new.*1).
Proof.
  induction entries as [|[serverId server] rest IH]; intros acc s Hget.
  - exists [], s. cbn. rewrite !app_nil_r. split_and!; try done.
    + intros ? ? H. by apply elem_of_nil in H.
    + intros ? ? ? H. by apply elem_of_nil in H.
  - assert (Hrest : forall s1, servers s1 = servers s ->
              forall sid srv, (sid, srv) ∈ rest ->
                JsMap.get sid (servers s1) = Some srv).
    { intros s1 -> sid srv Hin. apply Hget. by right. }
    assert (Hcalls : omap listTools_call ((serverId, server) :: rest) =
              (if usable server then
                 match client server with Some c => [CallListTools c] | None => [] end
               else []) ++ omap listTools_call rest).
    { cbn. unfold listTools_call at 1. cbn.
      destruct (usable server); [|done]. by destruct (client server). }
    rewrite Hcalls. clear Hcalls. cbn [getAllTools_loop].
    destruct (usable server) eqn:Husable.
    + destruct (usable_inv _ Husable) as [Hflag [c Hclient]].
      unfold bind at 1, try_catch, bind at 1.
      rewrite (listTools_usable serverId server c s (Hget _ _ (list_elem_of_here _ _))
                 Hflag Hclient).
      rewrite Hclient. cbn.
      destruct (client_listTools w (trace s) c) as [response|e] eqn:Hanswer; cbn.
      * edestruct (IH (acc ++ [(serverId, default [] response)])
                      {| servers := servers s; allocated := allocated s;
                         trace := trace s ++ [CallListTools c] |})
          as (new & s' & Hrun & Hservers & Halloc & Htrace & Hsub & Hsound & Hcomplete).
        { by apply Hrest. }
        exists ((serverId, default [] response) :: new), s'. split_and!.
        -- rewrite Hrun. by rewrite <- app_assoc.
        -- done.
        -- done.
        -- rewrite Htrace. cbn. by rewrite <- app_assoc.
        -- cbn. rewrite decide_True by done. cbn. by apply sublist_skip.
        -- intros sid tools [Heq|Hin]%elem_of_cons.
           ++ injection Heq as -> ->.
              exists server, c, (trace s), response. split_and!; try done. by left.
           ++ destruct (Hsound _ _ Hin) as (srv & c' & t & resp & ? & ? & ? & ? & ?).
              exists srv, c', t, resp. split_and!; try done. by right.
        -- intros sid srv c' [Heq|Hin]%elem_of_cons Hu Hc Hok; cbn.
           ++ injection Heq as -> ->. by left.
           ++ right. by eapply Hcomplete.
      * edestruct (IH acc
                      {| servers := servers s; allocated := allocated s;
                         trace := trace s ++ [CallListTools c] |})
          as (new & s' & Hrun & Hservers & Halloc & Htrace & Hsub & Hsound & Hcomplete).
        { by apply Hrest. }
        exists new, s'. split_and!.
        -- done.
        -- done.
        -- done.
        -- rewrite Htrace. cbn. by rewrite <- app_assoc.
        -- cbn. rewrite decide_True by done. cbn. by apply sublist_cons.
        -- intros sid tools Hin.
           destruct (Hsound _ _ Hin) as (srv & c' & t & resp & ? & ? & ? & ? & ?).
           exists srv, c', t, resp. split_and!; try done. by right.
        -- intros sid srv c' [Heq|Hin]%elem_of_cons Hu Hc Hok.
           ++ injection Heq as -> ->. rewrite Hclient in Hc. injection Hc as <-.
              specialize (Hok (trace s)). by rewrite Hanswer in Hok.
           ++ by eapply Hcomplete.
    + edestruct (IH acc s)
        as (new & s' & Hrun & Hservers & Halloc & Htrace & Hsub & Hsound & Hcomplete).
      { by apply Hrest. }
      exists new, s'. split_and!; try done.
      * cbn. by rewrite decide_False by (by rewrite Husable).
      * intros sid tools Hin.
        destruct (Hsound _ _ Hin) as (srv & c' & t & resp & ? & ? & ? & ? & ?).
        exists srv, c', t, resp. split_and!; try done. by right.
      * intros sid srv c' [Heq|Hin]%elem_of_cons Hu Hc Hok.
        -- injection Heq as -> ->. by rewrite Husable in Hu.
        -- by eapply Hcomplete.
Qed.

(** C5: [getAllTools] never throws and leaves the registry as it is.  It
    calls [listTools] once for every session that is connected, in the order
    of the registry, and for no other session.  The server ids of its result
    are, in that order, ids of connected sessions; every entry of the result
    carries what one resolved [listTools] call of that server returned; a
    connected server whose [listTools] always resolves is part of the result
    whatever the other servers do.  In particular, on a registry of one
    connected and one disconnected server the result holds the tools of the
    connected one only, or nothing when that call fails. *)
Theorem getAllTools_tolerates_failures (s : State) :
  JsMap.wf (servers s) ->
  exists results s',
    getAllTools w s = (Ok results, s') /\
    servers s' = servers s /\
    trace s' = trace s ++ omap listTools_call (servers s) /\
    results.*1 `sublist_of` (filter (fun e => usable e.2 = true) (servers s)).*1 /\
    (forall serverId tools,
       (serverId, tools) ∈ results ->
       exists server c t response,
         JsMap.get serverId (servers s) = Some server /\
         isConnected server = true /\ client server = Some c /\
         client_listTools w t c = Ok response /\
         tools = default [] response) /\
    (forall serverId server c,
       JsMap.get serverId (servers s) = Some server ->
       isConnected server = true -> client server = Some c ->
       (forall t, is_ok (client_listTools w t c) = true) ->
       serverId ∈ results.*1) /\
    (forall a b server other c,
       servers s = [(a, server); (b, other)] ->
       isConnected server = true -> client server = Some c ->
       isConnected other = false ->
       results = match client_listTools w (trace s) c with
                 | Ok response => [(a, default [] response)]
                 | Throw _ => []
                 end).
Proof.
  intros Hwf.
  destruct (getAllTools_loop_spec (servers s) [] s)
    as (new & s' & Hrun & Hservers & _ & Htrace & Hsub & Hsound & Hcomplete).
  { intros serverId server Hin. by apply jsmap_get_elem_of. }
  exists new, s'. split_and!; try done.
  - intros serverId tools Hin.
    destruct (Hsound _ _ Hin) as (server & c & t & response & Hentry & Hu & ? & ? & ?).
    exists server, c, t, response. split_and!; try done.
    + by apply jsmap_get_elem_of.
    + by apply usable_inv in Hu as [? _].
  - intros serverId server c Hget Hflag Hclient Hok.
    apply (Hcomplete serverId server c); try done.
    + by apply jsmap_get_Some_elem_of.
    + unfold usable. by rewrite Hflag, Hclient.
  - intros a b server other c Hs Hflag Hclient Hother.
    rewrite Hs in Hrun. cbn [getAllTools_loop] in Hrun.
    assert (Hu : usable server = true).
    { unfold usable. by rewrite Hflag, Hclient. }
    assert (Hno : usable other = false).
    { unfold usable. by rewrite Hother. }
    rewrite Hu, Hno in Hrun. unfold bind at 1, try_catch, bind at 1 in Hrun.
    rewrite (listTools_usable a server c s) in Hrun; try done.
    + destruct (client_listTools w (trace s) c); cbn in Hrun; by injection Hrun.
    + rewrite Hs. cbn. by rewrite decide_True.
Qed.

End ServerManagerSpec.

Lemma calls_on_unconnected_server_rejected_witness :
  (ServerManager.listTools Scenario.healthy "web" Scenario.mixed =
     (Throw ServerManager.not_connected_error, Scenario.mixed) /\
   ServerManager.callTool Scenario.healthy "web" "echo" JNull Scenario.mixed =
     (Throw ServerManager.not_connected_error, Scenario.mixed)) /\
  (ServerManager.listTools Scenario.healthy "absent" Scenario.mixed =
     (Throw ServerManager.not_connected_error, Scenario.mixed) /\
   ServerManager.callTool Scenario.healthy "absent" "echo" JNull Scenario.mixed =
     (Throw ServerManager.not_connected_error, Scenario.mixed)).
Proof.
  split.
  - apply (calls_on_unconnected_server_rejected Scenario.healthy "web" "echo"
             JNull Scenario.mixed).
    right. eexists. split; [reflexivity | reflexivity].
  - apply (calls_on_unconnected_server_rejected Scenario.healthy "absent" "echo"
             JNull Scenario.mixed).
    left. reflexivity.
Defined.


Lemma getAllTools_tolerates_failures_witness :
  exists results s',
    ServerManager.getAllTools Scenario.healthy Scenario.mixed = (Ok results, s') /\
    results = [("files", [Scenario.echo_tool])] /\
    ServerManager.servers s' = ServerManager.servers Scenario.mixed /\
    ServerManager.trace s' = [ServerManager.CallListTools 1].
Proof.
  destruct (getAllTools_tolerates_failures Scenario.healthy Scenario.mixed)
    as (results & s' & Hrun & Hservers & Htrace & _ & _ & _ & Htwo).
  { unfold JsMap.wf. cbn. apply NoDup_cons. split.
    - intros H%list_elem_of_singleton. discriminate H.
    - apply NoDup_singleton. }
  exists results, s'. split_and!; try done.
  eapply Htwo; reflexivity.
Defined.

(** ** [MCPClient] and [MCPClientManager] *)
Section BrowserClientSpec.
Import BrowserClient.
Context (w : World).

Lemma ok_range {B} (r : Response B) :
  ok r = true <-> (200 <= status r <= 299)%Z.
Proof. unfold ok. rewrite andb_true_iff, !Z.leb_le. tauto. Qed.

(** [listTools] sends its one request and changes nothing else. *)
Lemma listTools_effect (s : Env MCPClient) :
  (listTools w s).2 =
    {| this := this s;
       history := history s ++ [listTools_request w (config (this s))] |}.
Proof.
  unfold listTools, try_catch, bind, gets, fetch, throw, ret. cbn.
  destruct (network w (history s) _) as [response|e]; cbn; [|done].
  destruct (ok response); cbn; [|done].
  destruct (json response) as [data|e]; cbn; [|done].
  by destruct (body_tools data).
Qed.

Lemma getServerTools_run (serverId : string) (s : Env MCPClientManager) :
  getServerTools w serverId s =
    match JsMap.get serverId (this s) with
    | None => (Ok [], s)
    | Some client =>
        if isConnected client then
          (Ok match (listTools w {| this := client; history := history s |}).1 with
              | Ok tools => map Types.tool_name tools
              | Throw _ => demo_tools serverId
              end,
           {| this := this s;
              history := history s ++ [listTools_request w (config client)] |})
        else (Ok [], s)
    end.
Proof.
  unfold getServerTools, bind at 1, gets, ret. cbn.
  destruct (JsMap.get serverId (this s)) as [client|]; [|done].
  unfold getConnectionStatus. destruct (isConnected client); [|done]. cbn.
  unfold try_catch, bind, on.
  pose proof (listTools_effect {| this := client; history := history s |}) as Heff.
  by destruct (listTools w {| this := client; history := history s |}) as [[tools|e] s1];
    cbn in Heff; subst s1.
Qed.

(** C6: for a client of an [sse] server with a non-empty url, the probe
    succeeds exactly when the request resolves with a status in 200-299 or
    with 405; and whatever the probe's outcome, [connect] resolves, with the
    client marked connected and the probe as its only request. *)
Theorem connect_sse_probe_is_advisory
  (client : MCPClient) (url : string) (sent : list Request) :
  Types.transport (config client) = Some Types.sse ->
  Types.url (config client) = Some url ->
  url <> EmptyString ->
  let s := {| this := client; history := sent |} in
  let probe := sse_probe_request url (config client) in
  ((sse_probe w url s).1 = Ok tt <->
   exists response,
     network w sent probe = Ok response /\
     ((200 <= status response <= 299)%Z \/ status response = 405%Z)) /\
  connect w s =
    (Ok tt, {| this := {| config := config client; isConnected := true |};
               history := sent ++ [probe] |}).
Proof.
  intros Htransport Hurl Hne s probe. split.
  - unfold sse_probe, bind, gets, fetch, throw, ret. cbn. fold probe.
    destruct (network w sent probe) as [response|e]; cbn.
    + destruct (ok response) eqn:Hok; cbn.
      * split; [|done]. intros _. exists response. split; [done|].
        left. by apply ok_range.
      * destruct (bool_decide (status response = 405%Z)) eqn:H405; cbn.
        -- apply bool_decide_eq_true in H405. split; [|done].
           intros _. exists response. by split; [|right].
        -- apply bool_decide_eq_false in H405. split; [done|].
           intros (r & [= <-] & [Hrange%ok_range|H]); [congruence | done].
    + split; [done|]. by intros (r & ? & _).
  - unfold connect, try_catch, bind at 1, gets. cbn.
    rewrite Htransport. unfold truthy. rewrite Hurl.
    rewrite bool_decide_eq_false_2 by done. cbn.
    unfold bind, try_catch, sse_probe, bind, gets, fetch, modify, set_this,
      set_isConnected, throw, ret. cbn. fold probe.
    destruct (network w sent probe) as [response|e]; cbn; [|done].
    by destruct (negb (ok response) && negb (bool_decide (status response = 405%Z))).
Qed.

(** C10: [getServerTools] always resolves and never changes the manager.
    Without a registered client, or with a client that is not connected, it
    resolves to the empty list and sends nothing; when the client's
    [listTools] throws, it resolves to the first fixed list for
    'demo-server-1', to the second for 'demo-server-2', and to the empty list
    for any other id. *)
Theorem getServerTools_never_throws (serverId : string) (s : Env MCPClientManager) :
  exists tools s',
    getServerTools w serverId s = (Ok tools, s') /\
    this s' = this s /\
    (JsMap.get serverId (this s) = None \/
     (exists client, JsMap.get serverId (this s) = Some client /\
                     isConnected client = false) ->
     tools = [] /\ s' = s) /\
    (forall client e,
       JsMap.get serverId (this s) = Some client ->
       isConnected client = true ->
       (listTools w {| this := client; history := history s |}).1 = Throw e ->
       tools =
         if bool_decide (serverId = "demo-server-1")
         then ["file_read"; "file_write"; "file_list"; "dir_create"; "search_files"]
         else if bool_decide (serverId = "demo-server-2")
         then ["web_scrape"; "api_call"; "http_request"; "json_parse"; "url_validate"]
         else []).
Proof.
  rewrite getServerTools_run.
  destruct (JsMap.get serverId (this s)) as [client|] eqn:Hget.
  - destruct (isConnected client) eqn:Hflag.
    + eexists _, _. split_and!; [done | done | |].
      * intros [?|(c & [= <-] & ?)]; congruence.
      * intros c e [= <-] _ Hthrow. by rewrite Hthrow.
    + exists [], s. split_and!; try done. intros c e [= <-]. congruence.
  - exists [], s. split_and!; try done.
Qed.

End BrowserClientSpec.

Lemma connect_sse_probe_is_advisory_witness :
  let client := BrowserClient.new_MCPClient BrowserScenario.events_server in
  let probe :=
    BrowserClient.sse_probe_request "http://localhost:8080/mcp/events"
      BrowserScenario.events_server in
  (BrowserClient.sse_probe BrowserScenario.failing "http://localhost:8080/mcp/events"
     {| this := client; history := [] |}).1 <> Ok tt /\
  BrowserClient.connect BrowserScenario.failing {| this := client; history := [] |} =
    (Ok tt, {| this := {| BrowserClient.config := BrowserScenario.events_server;
                          BrowserClient.isConnected := true |};
               history := [probe] |}).
Proof.
  destruct (connect_sse_probe_is_advisory BrowserScenario.failing
              (BrowserClient.new_MCPClient BrowserScenario.events_server)
              "http://localhost:8080/mcp/events" [] eq_refl eq_refl)
    as [Hprobe Hconnect]; [done|].
  split; [|exact Hconnect].
  intros H. apply Hprobe in H as (response & [= <-] & [[Hlo Hhi]|H405]).
  - vm_compute in Hhi. by apply Hhi.
  - discriminate H405.
Defined.

Lemma getServerTools_never_throws_witness :
  (exists s', BrowserClient.getServerTools BrowserScenario.offline "demo-server-1"
                BrowserScenario.two_clients =
              (Ok ["file_read"; "file_write"; "file_list"; "dir_create";
                   "search_files"], s')) /\
  BrowserClient.getServerTools BrowserScenario.offline "demo-server-2"
    BrowserScenario.two_clients = (Ok [], BrowserScenario.two_clients) /\
  BrowserClient.getServerTools BrowserScenario.offline "unknown"
    BrowserScenario.two_clients = (Ok [], BrowserScenario.two_clients).
Proof.
  split_and!.
  - destruct (getServerTools_never_throws BrowserScenario.offline "demo-server-1"
                BrowserScenario.two_clients)
      as (tools & s' & Hrun & _ & _ & Hfallback).
    exists s'. rewrite Hrun. do 2 f_equal.
    by apply (Hfallback _ (MkError "Failed to fetch") eq_refl eq_refl).
  - destruct (getServerTools_never_throws BrowserScenario.offline "demo-server-2"
                BrowserScenario.two_clients)
      as (tools & s' & Hrun & _ & Hnone & _).
    rewrite Hrun. destruct Hnone as [-> ->]; [|done].
    right. eexists. by split.
  - destruct (getServerTools_never_throws BrowserScenario.offline "unknown"
                BrowserScenario.two_clients)
      as (tools & s' & Hrun & _ & Hnone & _).
    rewrite Hrun. destruct Hnone as [-> ->]; [|done]. by left.
Defined.

(** ** [BridgeMCPClient] *)
Section BridgeSpec.
Import Bridge.

(** The three public operations are one method up to the operation name and
    the demo method. *)
Lemma operation_run (w : World) (op : Operation) (path : string)
  (s : Env BridgeMCPClient) :
  operation w op path s =
    if isConnected (this s) then
      (Ok match w (history s) (operation_request (this s) op path) with
          | Ok response =>
              if ok response then
                match json response with
                | Ok data => data
                | Throw _ => synthetic op path
                end
              else synthetic op path
          | Throw _ => synthetic op path
          end,
       {| this := this s;
          history := history s ++ [operation_request (this s) op path] |})
    else (Ok (synthetic op path), s).
Proof.
  destruct op;
    unfold operation, analyzeProject, listFiles, readFile, try_catch,
      bridge_request, bind, gets, fetch, throw, ret; cbn;
    (destruct (isConnected (this s)); cbn; [|done]);
    (destruct (w (history s) _) as [response|e]; cbn; [|done]);
    (destruct (ok response); cbn; [|done]);
    by destruct (json response).
Qed.

(** C7: each of [analyzeProject], [listFiles] and [readFile] resolves,
    whatever the bridge does, and leaves the client as it was.  With the
    cached flag off, the result is the demo payload and no request is sent.
    With the flag on, one request is sent; if it is rejected, answered with
    a status outside 200-299, or its body cannot be parsed, the result is the
    same demo payload; otherwise it is the parsed body. *)
Theorem bridge_operations_never_raise
  (w : World) (op : Operation) (path : string) (s : Env BridgeMCPClient) :
  exists data s',
    operation w op path s = (Ok data, s') /\
    this s' = this s /\
    (isConnected (this s) = false -> data = synthetic op path /\ s' = s) /\
    (isConnected (this s) = true ->
     let request := operation_request (this s) op path in
     history s' = history s ++ [request] /\
     (forall e, w (history s) request = Throw e -> data = synthetic op path) /\
     (forall response,
        w (history s) request = Ok response ->
        (ok response = false -> data = synthetic op path) /\
        (forall e, json response = Throw e -> data = synthetic op path) /\
        (forall body, ok response = true -> json response = Ok body ->
                      data = body))).
Proof.
  rewrite operation_run. destruct (isConnected (this s)) eqn:Hflag.
  - eexists _, _. split_and!; [done | done | done |].
    intros _ request. subst request. cbn. split_and!; [done | |].
    + by intros e ->.
    + intros response ->. split_and!.
      * by intros ->.
      * intros e He. rewrite He. by destruct (ok response).
      * by intros body -> ->.
  - exists (synthetic op path), s. by split_and!.
Qed.

(** C8: with the cached flag off, the result of an operation depends on the
    path alone: any two clients, bridges and histories give the same payload
    for the same path.  Every demo payload has a [note] property, a string
    that says the data is demo data.  The [type] and [structure] properties
    of the demo analysis are the same for every call (and every path). *)
Theorem synthetic_payloads_deterministic_and_labelled
  (op : Operation) (path : string) :
  (forall (w1 w2 : World) (s1 s2 : Env BridgeMCPClient),
     isConnected (this s1) = false -> isConnected (this s2) = false ->
     (operation w1 op path s1).1 = (operation w2 op path s2).1 /\
     (operation w1 op path s1).1 = Ok (synthetic op path)) /\
  (exists note,
     property "note" (synthetic op path) = Some (JStr note) /\
     says_demo note = true) /\
  (forall (w1 w2 : World) (s1 s2 : Env BridgeMCPClient) (first second : JSON),
     isConnected (this s1) = false -> isConnected (this s2) = false ->
     (analyzeProject w1 path s1).1 = Ok first ->
     (analyzeProject w2 path s2).1 = Ok second ->
     property "type" first = Some (JStr "Demo Analysis") /\
     property "type" first = property "type" second /\
     is_Some (property "structure" first) /\
     property "structure" first = property "structure" second /\
     is_Some (property "note" first)).
Proof.
  split_and!.
  - intros w1 w2 s1 s2 H1 H2. rewrite !operation_run, H1, H2. by split.
  - destruct op; eexists; (split; [reflexivity | by vm_compute]).
  - intros w1 w2 s1 s2 first second H1 H2.
    change (analyzeProject w1 path s1) with (operation w1 analyze_project path s1).
    change (analyzeProject w2 path s2) with (operation w2 analyze_project path s2).
    rewrite !operation_run, H1, H2.
    intros [= <-] [= <-]. split_and!; try done; by eexists.
Qed.

End BridgeSpec.

Lemma bridge_operations_never_raise_witness :
  Bridge.operation BridgeScenario.unreachable Bridge.analyze_project "/any/path"
    BridgeScenario.initial =
    (Ok (Bridge.getDemoAnalysis "/any/path"), BridgeScenario.initial) /\
  (Bridge.operation BridgeScenario.unavailable Bridge.list_files "/any/path"
     BridgeScenario.checked).1 = Ok (Bridge.getDemoFileList "/any/path") /\
  (Bridge.operation BridgeScenario.serving Bridge.read_file "/any/path"
     BridgeScenario.checked).1 = Ok (JObj [("real", JBool true)]).
Proof.
  split_and!.
  - destruct (bridge_operations_never_raise BridgeScenario.unreachable
                Bridge.analyze_project "/any/path" BridgeScenario.initial)
      as (data & s' & Hrun & _ & Hoff & _).
    rewrite Hrun. by destruct (Hoff eq_refl) as [-> ->].
  - destruct (bridge_operations_never_raise BridgeScenario.unavailable
                Bridge.list_files "/any/path" BridgeScenario.checked)
      as (data & s' & Hrun & _ & _ & Hon).
    rewrite Hrun. cbn. f_equal.
    destruct (Hon eq_refl) as (_ & _ & Hresponse).
    destruct (Hresponse _ eq_refl) as (Hstatus & _).
    exact (Hstatus eq_refl).
  - destruct (bridge_operations_never_raise BridgeScenario.serving
                Bridge.read_file "/any/path" BridgeScenario.checked)
      as (data & s' & Hrun & _ & _ & Hon).
    rewrite Hrun. cbn. f_equal.
    destruct (Hon eq_refl) as (_ & _ & Hresponse).
    destruct (Hresponse _ eq_refl) as (_ & _ & Hbody).
    exact (Hbody _ eq_refl eq_refl).
Defined.

Lemma synthetic_payloads_deterministic_and_labelled_witness :
  (Bridge.analyzeProject BridgeScenario.unreachable "/any/path"
     BridgeScenario.initial).1 =
  (Bridge.analyzeProject BridgeScenario.serving "/any/path"
     {| this := Bridge.new_BridgeMCPClient (Some "http://bridge:9000");
        history := [Bridge.health_request (Bridge.new_BridgeMCPClient None)] |}).1 /\
  Bridge.property "note" (Bridge.getDemoAnalysis "/any/path") =
    Some (JStr "This is demo data. Start local bridge server for real analysis.").
Proof.
  destruct (synthetic_payloads_deterministic_and_labelled Bridge.analyze_project
              "/any/path") as (Hsame & _ & _).
  split; [|reflexivity].
  exact (proj1 (Hsame BridgeScenario.unreachable BridgeScenario.serving
                  BridgeScenario.initial
                  {| this := Bridge.new_BridgeMCPClient (Some "http://bridge:9000");
                     history := [Bridge.health_request
                                   (Bridge.new_BridgeMCPClient None)] |}
                  eq_refl eq_refl)).
Defined.

(** ** The MCP actions of the store *)
Section StoreSpec.
Import Store.
Context (w : BrowserClient.World).

Lemma set_mcpClientManager_same (a : AppState) :
  set_mcpClientManager (mcpClientManager a) a = a.
Proof. by destruct a. Qed.

(** Asking the manager for the tools of one server leaves the store as it
    is and sends at most the [listTools] request of that server's client. *)
Lemma on_manager_getServerTools (serverId : string) (s : Env AppState) :
  exists tools sent,
    on_manager (BrowserClient.getServerTools w serverId) s =
      (Ok tools, {| this := this s; history := history s ++ sent |}) /\
    Forall (fun r => exists config, r = BrowserClient.listTools_request w config) sent.
Proof.
  unfold on_manager. rewrite getServerTools_run. cbn.
  destruct (JsMap.get serverId (mcpClientManager (this s))) as [client|].
  - destruct (BrowserClient.isConnected client); cbn;
      rewrite set_mcpClientManager_same.
    + eexists _, [_]. split; [done|]. apply Forall_singleton. by eexists.
    + exists [], []. rewrite app_nil_r. split; [by destruct s | done].
  - cbn. rewrite set_mcpClientManager_same.
    exists [], []. rewrite app_nil_r. split; [by destruct s | done].
Qed.

Lemma refreshMCPTools_loop_spec (servers : list Types.MCPServerConfig) :
  forall (totalTools : list string) (s : Env AppState),
  exists tools sent,
    refreshMCPTools_loop w servers totalTools s =
      (Ok tools, {| this := this s; history := history s ++ sent |}) /\
    Forall (fun r => exists config, r = BrowserClient.listTools_request w config) sent.
Proof.
  induction servers as [|server rest IH]; intros totalTools s; cbn.
  - exists totalTools, []. rewrite app_nil_r. split; [by destruct s | done].
  - destruct (Types.isConnected server); [|apply IH].
    unfold bind at 1, try_catch, bind at 1.
    destruct (on_manager_getServerTools (Types.id server) s)
      as (serverTools & sent1 & -> & Hsent1). cbn.
    destruct (IH (totalTools ++ serverTools)
                {| this := this s; history := history s ++ sent1 |})
      as (tools & sent2 & -> & Hsent2). cbn.
    exists tools, (sent1 ++ sent2). rewrite app_assoc. split; [done|].
    by apply Forall_app.
Qed.

(** [refreshMCPTools] resolves; it writes [availableTools] and nothing else,
    and sends only [listTools] requests. *)
Lemma refreshMCPTools_spec (s : Env AppState) :
  exists tools sent,
    refreshMCPTools w s =
      (Ok tt, {| this := set_availableTools tools (this s);
                 history := history s ++ sent |}) /\
    Forall (fun r => exists config, r = BrowserClient.listTools_request w config) sent.
Proof.
  unfold refreshMCPTools, try_catch, bind at 1, gets. cbn. unfold bind at 1.
  destruct (refreshMCPTools_loop_spec (mcpServers (this s)) [] s)
    as (tools & sent & -> & Hsent). cbn.
  eexists _, sent. split; [|done]. unfold set, modify, set_this. by cbn.
Qed.

(** The [map] of [toggleMCPServer]. *)
Lemma toggle_map_lookup (serverId : string) (servers : list Types.MCPServerConfig)
  (i : nat) (server : Types.MCPServerConfig) :
  servers !! i = Some server ->
  map (fun server =>
         if bool_decide (Types.id server = serverId)
         then Types.with_isConnected (negb (Types.isConnected server)) server
         else server) servers !! i =
    Some (if bool_decide (Types.id server = serverId)
          then Types.with_isConnected (negb (Types.isConnected server)) server
          else server).
Proof. intros H. by rewrite list_lookup_fmap, H. Qed.

Lemma toggle_map_no_match (serverId : string) (servers : list Types.MCPServerConfig) :
  (forall server, server ∈ servers -> Types.id server <> serverId) ->
  map (fun server =>
         if bool_decide (Types.id server = serverId)
         then Types.with_isConnected (negb (Types.isConnected server)) server
         else server) servers = servers.
Proof.
  induction servers as [|server rest IH]; intros Hne; cbn; [done|].
  rewrite bool_decide_eq_false_2 by (apply Hne; by left).
  f_equal. apply IH. intros x Hx. apply Hne. by right.
Qed.

(** C9: [toggleMCPServer] resolves.  In the server list it leaves, every
    position holds the server that was there: with the flag [isConnected]
    negated and every other property unchanged when its id is the given one,
    and unchanged otherwise; so no server is added or removed, and without a
    server of that id the list is the same.  The client manager (each client's
    own connection flag included) is untouched, and the only requests sent
    are the tool-listing GET requests of the refresh: no connect request
    (POST, HEAD) and no disconnect request (DELETE). *)
Theorem toggleMCPServer_flips_only_the_flag (serverId : string) (s : Env AppState) :
  exists s',
    toggleMCPServer w serverId s = (Ok tt, s') /\
    length (mcpServers (this s')) = length (mcpServers (this s)) /\
    (forall i server,
       mcpServers (this s) !! i = Some server ->
       exists server',
         mcpServers (this s') !! i = Some server' /\
         Types.same_but_isConnected server server' /\
         Types.isConnected server' =
           (if bool_decide (Types.id server = serverId)
            then negb (Types.isConnected server)
            else Types.isConnected server) /\
         (Types.id server <> serverId -> server' = server)) /\
    ((forall server, server ∈ mcpServers (this s) -> Types.id server <> serverId) ->
     mcpServers (this s') = mcpServers (this s)) /\
    mcpClientManager (this s') = mcpClientManager (this s) /\
    isLoading (this s') = isLoading (this s) /\
    error (this s') = error (this s) /\
    (exists sent,
       history s' = history s ++ sent /\
       Forall (fun r => req_method r = GET /\
                        exists config, r = BrowserClient.listTools_request w config)
              sent).
Proof.
  unfold toggleMCPServer, bind at 1, gets. cbn.
  unfold bind, set, modify. cbn.
  match goal with
  | |- context [refreshMCPTools w ?s1] =>
      destruct (refreshMCPTools_spec s1) as (tools & sent & -> & Hsent)
  end.
  cbn. eexists. split_and!; [done | | | | done | done | done |]; cbn.
  - by rewrite length_map.
  - intros i server Hi. eexists. split; [by apply toggle_map_lookup|].
    destruct (bool_decide (Types.id server = serverId)) eqn:Hid.
    + split_and!; [by unfold Types.same_but_isConnected | done |].
      intros Hne. by apply bool_decide_eq_true in Hid.
    + split_and!; [by unfold Types.same_but_isConnected | done | done].
  - apply toggle_map_no_match.
  - exists sent. split; [done|].
    eapply Forall_impl; [exact Hsent|]. intros r [config ->]. split; [done|].
    by eexists.
Qed.

(** The later revision of [addMCPServer] rejects an id that is already in
    the server list, before anything is sent and without touching the store
    (the sibling of the check that [ServerSideMCPManager.addServer] lacks). *)
Lemma addMCPServer_rejects_duplicate (config : Types.MCPServerConfig)
  (s : Env AppState) :
  Types.id config <> EmptyString -> Types.name config <> EmptyString ->
  (Types.transport config = Some Types.stdio -> truthy (Types.command config) = true) ->
  (Types.transport config = Some Types.sse \/
   Types.transport config = Some Types.websocket ->
   truthy (Types.url config) = true) ->
  (exists server, server ∈ mcpServers (this s) /\ Types.id server = Types.id config) ->
  addMCPServer w config s =
    (Throw (MkError ("Server with ID '" ++ Types.id config ++ "' already exists")), s).
Proof.
  intros Hid Hname Hcommand Hurl (server & Hin & Hsame).
  assert (Hfind : exists existing,
            find (fun s0 => bool_decide (Types.id s0 = Types.id config))
                 (mcpServers (this s)) = Some existing).
  { destruct (find (fun s0 => bool_decide (Types.id s0 = Types.id config))
                   (mcpServers (this s))) as [existing|] eqn:Hfind;
      [by eexists|].
    eapply find_none in Hfind; [|apply list_elem_of_In; exact Hin].
    by rewrite bool_decide_eq_true_2 in Hfind. }
  destruct Hfind as [existing Hfind].
  assert (Hstdio : bool_decide (Types.transport config = Some Types.stdio)
                   && negb (truthy (Types.command config)) = false).
  { destruct (bool_decide (Types.transport config = Some Types.stdio)) eqn:H;
      [|done].
    apply bool_decide_eq_true in H. by rewrite (Hcommand H). }
  assert (Hnet : (bool_decide (Types.transport config = Some Types.sse)
                  || bool_decide (Types.transport config = Some Types.websocket))
                 && negb (truthy (Types.url config)) = false).
  { destruct (bool_decide (Types.transport config = Some Types.sse)
              || bool_decide (Types.transport config = Some Types.websocket))
      eqn:H; [|done].
    rewrite Hurl; [done|].
    apply orb_true_iff in H as [H|H]; apply bool_decide_eq_true in H; tauto. }
  unfold addMCPServer. rewrite !bool_decide_eq_false_2 by done. cbn.
  rewrite Hstdio, Hnet. unfold bind, gets. cbn. by rewrite Hfind.
Qed.

End StoreSpec.

Lemma toggleMCPServer_flips_only_the_flag_witness :
  exists s',
    Store.toggleMCPServer BrowserScenario.offline "demo-server-2"
      BrowserScenario.store = (Ok tt, s') /\
    Store.mcpServers (this s') =
      [BrowserScenario.files_server;
       Types.with_isConnected true BrowserScenario.events_server] /\
    Store.mcpClientManager (this s') = this BrowserScenario.two_clients /\
    Forall (fun r => req_method r = GET) (history s').
Proof.
  destruct (toggleMCPServer_flips_only_the_flag BrowserScenario.offline
              "demo-server-2" BrowserScenario.store)
    as (s' & Hrun & Hlen & Hat & _ & Hmanager & _ & _ & sent & Hhistory & Hsent).
  exists s'. split_and!; [done | | done |].
  - destruct (Hat 0 BrowserScenario.files_server eq_refl)
      as (a & Ha & _ & _ & Hsame).
    destruct (Hat 1 BrowserScenario.events_server eq_refl)
      as (b & Hb & (? & ? & ? & ? & ? & ? & ? & ? & ? & ?) & Hflag & _).
    rewrite (Hsame ltac:(done)) in Ha.
    destruct (Store.mcpServers (this s')) as [|x [|y [|z rest]]]; try done.
    cbn in Ha, Hb. injection Ha as ->. injection Hb as ->.
    do 2 f_equal. destruct b. cbn in *. by simplify_eq.
  - rewrite Hhistory. cbn. eapply Forall_impl; [exact Hsent|]. by intros r [? _].
Defined.

(** ** [ServerSideMCPManager]: invariants and compositions *)
Section ManagerInvariant.
Import ServerManager ManagerQueries.
Context (w : World).

Ltac run :=
  unfold addServer, removeServer, listTools, callTool, getAllTools,
    bind, ret, throw, try_catch, gets, modify, call, new_object, set_servers;
  cbn.

Lemma session_ok_mono (n n' : nat) (entry : string * MCPServerProcess) :
  n <= n' -> session_ok n entry -> session_ok n' entry.
Proof.
  intros Hle (Hid & Hflag & Hproc & c & t & Hc & Ht & Hlt & Hlt').
  split_and!; try done. exists c, t. split_and!; try done; lia.
Qed.

Lemma clients_bounded (n : nat) (m : JsMap.t MCPServerProcess) (c : Handle) :
  Forall (session_ok n) m -> c ∈ clients m -> c < n.
Proof.
  intros Hall Hin. unfold clients in Hin.
  apply list_elem_of_omap in Hin as (entry & Hentry & Hclient).
  rewrite Forall_forall in Hall.
  destruct (Hall _ Hentry) as (_ & _ & _ & c' & t & Hc & _ & Hlt & _).
  cbn in Hclient. rewrite Hc in Hclient. by injection Hclient as <-.
Qed.

Lemma clients_set (k : string) (v : MCPServerProcess)
  (m : JsMap.t MCPServerProcess) (c : Handle) :
  c ∈ clients (JsMap.set k v m) -> c ∈ clients m \/ client v = Some c.
Proof.
  unfold clients. induction m as [|[k' v'] m IH]; cbn.
  - destruct (client v) as [c'|]; cbn.
    + intros ->%list_elem_of_singleton. by right.
    + intros H. by apply elem_of_nil in H.
  - destruct (decide (k' = k)) as [->|Hne]; cbn.
    + destruct (client v) as [c'|] eqn:Hv; cbn.
      * intros [->|Hin]%elem_of_cons; [by right|].
        left. destruct (client v'); [by right | done].
      * intros Hin. left. destruct (client v'); [by right | done].
    + destruct (client v') as [c'|]; cbn.
      * intros [->|Hin]%elem_of_cons; [left; by left|].
        destruct (IH Hin) as [?|?]; [left; by right | by right].
      * exact IH.
Qed.

Lemma clients_set_NoDup (k : string) (v : MCPServerProcess)
  (m : JsMap.t MCPServerProcess) (c : Handle) :
  client v = Some c -> c ∉ clients m ->
  NoDup (clients m) -> NoDup (clients (JsMap.set k v m)).
Proof.
  intros Hv. unfold clients. induction m as [|[k' v'] m IH]; cbn.
  - intros _ _. rewrite Hv. cbn. apply NoDup_singleton.
  - destruct (decide (k' = k)) as [->|Hne]; cbn.
    + rewrite Hv. cbn. destruct (client v') as [c'|]; cbn.
      * rewrite not_elem_of_cons, !NoDup_cons. intros [_ Hnin] [_ Hnd]. by split.
      * rewrite NoDup_cons. by split.
    + destruct (client v') as [c'|] eqn:Hv'; cbn; [|exact IH].
      rewrite not_elem_of_cons, !NoDup_cons. intros [Hne' Hnin] [Hnin' Hnd].
      split; [|by apply IH].
      intros [Hin|Hin]%clients_set; [done|].
      rewrite Hv in Hin. by injection Hin as ->.
Qed.

Lemma session_ok_set (n : nat) (k : string) (v : MCPServerProcess)
  (m : JsMap.t MCPServerProcess) :
  session_ok n (k, v) -> Forall (session_ok n) m ->
  Forall (session_ok n) (JsMap.set k v m).
Proof.
  intros Hv. induction m as [|[k' v'] m IH]; cbn.
  - intros _. by apply Forall_singleton.
  - rewrite Forall_cons. intros [Hhead Htail].
    destruct (decide (k' = k)); apply Forall_cons; split; try done.
    by apply IH.
Qed.

Lemma clients_delete_NoDup (k : string) (m : JsMap.t MCPServerProcess) :
  NoDup (clients m) -> NoDup (clients (JsMap.delete k m)).
Proof.
  unfold clients, JsMap.delete. induction m as [|[k' v'] m IH]; cbn; [done|].
  destruct (decide (k' <> k)); cbn.
  - destruct (client v') as [c|]; cbn; [|exact IH].
    rewrite !NoDup_cons. intros [Hnin Hnd]. split; [|by apply IH].
    intros Hin. apply Hnin.
    apply list_elem_of_omap in Hin as (entry & Hentry & Hclient).
    apply list_elem_of_filter in Hentry as [_ Hentry].
    apply list_elem_of_omap. by exists entry.
  - destruct (client v') as [c|]; cbn; [|exact IH].
    rewrite NoDup_cons. intros [_ Hnd]. by apply IH.
Qed.

Lemma consistent_addServer (config : ServerConfig) (s : State) :
  consistent s -> consistent (addServer w config s).2.
Proof.
  intros (Hwf & Hall & Hnd).
  destruct (client_connect w (trace s) (S (allocated s)) (allocated s) config)
    as [[]|e] eqn:Hconnect.
  - rewrite (addServer_connected w _ _ Hconnect). cbn. split_and!.
    + by apply jsmap_wf_set.
    + apply session_ok_set.
      * unfold session_ok. cbn. do 3 (split; [done|]).
        exists (S (allocated s)), (allocated s). split_and!; [done | done | lia | lia].
      * eapply Forall_impl; [exact Hall|]. intros entry.
        apply (session_ok_mono (allocated s)). cbn. lia.
    + eapply clients_set_NoDup; [done | | done].
      intros Hin%(clients_bounded (allocated s)); [cbn in Hin; lia | done].
  - rewrite (addServer_failed w _ _ _ Hconnect). cbn. split_and!; try done.
    eapply Forall_impl; [exact Hall|]. intros entry.
    apply (session_ok_mono (allocated s)). cbn. lia.
Qed.

Lemma removeServer_allocated (serverId : string) (s : State) :
  allocated (removeServer w serverId s).2 = allocated s.
Proof.
  run. destruct (JsMap.get serverId (servers s)) as [server|]; cbn; [|done].
  destruct (client server) as [c|]; cbn.
  - destruct (client_close w (trace s) c); cbn; [|done].
    destruct (process server) as [p|]; cbn; [|done].
    by destruct (process_kill w _ p).
  - destruct (process server) as [p|]; cbn; [|done].
    by destruct (process_kill w _ p).
Qed.

Lemma consistent_removeServer (serverId : string) (s : State) :
  consistent s -> consistent (removeServer w serverId s).2.
Proof.
  intros (Hwf & Hall & Hnd). unfold consistent.
  rewrite removeServer_allocated,
    (proj2 (removeServer_result w serverId s)).
  split_and!.
  - by apply jsmap_wf_delete.
  - unfold JsMap.delete. apply Forall_forall.
    intros entry [_ Hentry]%list_elem_of_filter.
    rewrite Forall_forall in Hall. by apply Hall.
  - by apply clients_delete_NoDup.
Qed.

(** The guarded calls touch nothing but the trace. *)
Lemma listTools_frame (serverId : string) (s : State) :
  servers (listTools w serverId s).2 = servers s /\
  allocated (listTools w serverId s).2 = allocated s.
Proof.
  run. destruct (usable_client (JsMap.get serverId (servers s))) as [c|]; cbn;
    [|done].
  by destruct (client_listTools w (trace s) c).
Qed.

Lemma callTool_frame (serverId toolName : string) (arguments : JSON) (s : State) :
  servers (callTool w serverId toolName arguments s).2 = servers s /\
  allocated (callTool w serverId toolName arguments s).2 = allocated s.
Proof.
  run. destruct (usable_client (JsMap.get serverId (servers s))) as [c|]; cbn;
    [|done].
  by destruct (client_callTool w (trace s) c toolName arguments).
Qed.

Lemma getAllTools_frame (s : State) :
  JsMap.wf (servers s) ->
  exists results,
    (getAllTools w s).1 = Ok results /\
    servers (getAllTools w s).2 = servers s /\
    allocated (getAllTools w s).2 = allocated s /\
    results.*1 `sublist_of` JsMap.keys (servers s).
Proof.
  intros Hwf.
  destruct (getAllTools_loop_spec w (servers s) [] s)
    as (new & s' & Hrun & Hservers & Halloc & _ & Hsub & _).
  { intros serverId server Hin. by apply jsmap_get_elem_of. }
  exists new. unfold getAllTools, bind, gets. cbn in *. rewrite Hrun. cbn.
  split_and!; try done.
  etrans; [exact Hsub|]. unfold JsMap.keys. apply fmap_sublist, sublist_filter.
Qed.

(** X1: the registry of a new manager is consistent, and every method keeps
    it so, whatever the SDK answers: keys stay unique, every session is
    stored under its own id, is connected and holds a client and a transport
    created before, and no two sessions share a client. *)
Theorem manager_keeps_registry_consistent :
  (forall t, consistent {| servers := JsMap.empty; allocated := 0; trace := t |}) /\
  (forall (s : State),
     consistent s ->
     (forall config, consistent (addServer w config s).2) /\
     (forall serverId, consistent (removeServer w serverId s).2) /\
     (forall serverId, consistent (listTools w serverId s).2) /\
     (forall serverId toolName arguments,
        consistent (callTool w serverId toolName arguments s).2) /\
     consistent (getAllTools w s).2).
Proof.
  split.
  - intros t. split_and!; cbn; [apply NoDup_nil_2 | done | apply NoDup_nil_2].
  - intros s Hs. split_and!.
    + intros config. by apply consistent_addServer.
    + intros serverId. by apply consistent_removeServer.
    + intros serverId. destruct (listTools_frame serverId s) as [H1 H2].
      unfold consistent. by rewrite H1, H2.
    + intros serverId toolName arguments.
      destruct (callTool_frame serverId toolName arguments s) as [H1 H2].
      unfold consistent. by rewrite H1, H2.
    + destruct (getAllTools_frame s) as (results & _ & H1 & H2 & _);
        [by destruct Hs|].
      unfold consistent. by rewrite H1, H2.
Qed.

End ManagerInvariant.

Lemma with_files_consistent : ManagerQueries.consistent Scenario.with_files.
Proof.
  apply consistent_addServer.
  split_and!; cbn; [apply NoDup_nil_2 | done | apply NoDup_nil_2].
Qed.

Lemma manager_keeps_registry_consistent_witness :
  ManagerQueries.consistent Scenario.with_files /\
  ManagerQueries.consistent
    (ServerManager.addServer Scenario.healthy Scenario.files_config_again
       Scenario.with_files).2.
Proof.
  destruct (manager_keeps_registry_consistent Scenario.healthy) as [Hnew Hkeep].
  assert (Hfiles : ManagerQueries.consistent Scenario.with_files).
  { destruct (Hkeep Scenario.fresh (Hnew [])) as (Hadd & _).
    exact (Hadd Scenario.files_config). }
  split; [exact Hfiles|].
  destruct (Hkeep Scenario.with_files Hfiles) as (Hadd & _).
  exact (Hadd Scenario.files_config_again).
Defined.

Section ManagerCompositions.
Import ServerManager ManagerQueries.
Context (w : World).

Ltac run :=
  unfold addServer, removeServer, listTools, callTool, getAllTools,
    bind, ret, throw, try_catch, gets, modify, call, new_object, set_servers;
  cbn.

Lemma consistent_lookup (s : State) (serverId : string) (server : MCPServerProcess) :
  consistent s -> JsMap.get serverId (servers s) = Some server ->
  id server = serverId /\ isConnected server = true /\ process server = None /\
  exists c, client server = Some c /\ usable_client (Some server) = Some c.
Proof.
  intros (_ & Hall & _) Hget%jsmap_get_Some_elem_of.
  rewrite Forall_forall in Hall.
  destruct (Hall _ Hget) as (Hid & Hflag & Hproc & c & t & Hc & _).
  cbn in *. split_and!; try done. exists c. split; [done|].
  by rewrite Hc, Hflag.
Qed.

(** X2: in a consistent registry the guard of [listTools] and [callTool]
    rejects absent ids only: [getServerStatus] is true exactly for the
    registered ids, and a call for a registered id always reaches the client
    of its session. *)
Theorem registered_server_reaches_its_client (s : State) (serverId : string) :
  consistent s ->
  (getServerStatus serverId s = true <-> is_Some (JsMap.get serverId (servers s))) /\
  (forall server,
     JsMap.get serverId (servers s) = Some server ->
     exists c,
       client server = Some c /\
       trace (listTools w serverId s).2 = trace s ++ [CallListTools c] /\
       forall toolName arguments,
         trace (callTool w serverId toolName arguments s).2 =
           trace s ++ [CallTool c toolName arguments]).
Proof.
  intros Hs. split.
  - unfold getServerStatus.
    destruct (JsMap.get serverId (servers s)) as [server|] eqn:Hget.
    + destruct (consistent_lookup s serverId server Hs Hget) as (_ & -> & _).
      split; [by eexists | done].
    + split; [done | by intros [? ?]].
  - intros server Hget.
    destruct (consistent_lookup s serverId server Hs Hget)
      as (_ & _ & _ & c & Hc & Husable).
    exists c. split; [done|]. split.
    + run. rewrite Hget, Husable. cbn.
      by destruct (client_listTools w (trace s) c).
    + intros toolName arguments. run. rewrite Hget, Husable. cbn.
      by destruct (client_callTool w (trace s) c toolName arguments).
Qed.

(** X3: a call on a connected session is made exactly once and its outcome
    is handed on as it is: [callTool] returns the client's result or throws
    the client's error, [listTools] returns the reported tools (none when the
    response has no [tools]) or throws the client's error.  Either way the
    registry, the session's connected flag included, is as before. *)
Theorem connected_calls_pass_through
  (s : State) (serverId toolName : string) (arguments : JSON)
  (server : MCPServerProcess) (c : Handle) :
  JsMap.get serverId (servers s) = Some server ->
  isConnected server = true -> client server = Some c ->
  (let '(r, s') := callTool w serverId toolName arguments s in
   r = client_callTool w (trace s) c toolName arguments /\
   servers s' = servers s /\
   trace s' = trace s ++ [CallTool c toolName arguments] /\
   getServerStatus serverId s' = true) /\
  (let '(r, s') := listTools w serverId s in
   r = match client_listTools w (trace s) c with
       | Ok (Some tools) => Ok tools
       | Ok None => Ok []
       | Throw e => Throw e
       end /\
   servers s' = servers s /\
   trace s' = trace s ++ [CallListTools c] /\
   getServerStatus serverId s' = true).
Proof.
  intros Hget Hflag Hclient. split.
  - run. rewrite Hget. cbn. rewrite Hclient, Hflag. cbn.
    destruct (client_callTool w (trace s) c toolName arguments); cbn;
      unfold getServerStatus; cbn; by rewrite Hget.
  - rewrite (listTools_usable w serverId server c s Hget Hflag Hclient).
    unfold getServerStatus. cbn. rewrite Hget.
    by destruct (client_listTools w (trace s) c) as [[tools|]|e].
Qed.

(** X4: after [removeServer], calls for the removed id are rejected without
    reaching any client and its status is false; the sessions of all other
    ids, and their order, are as before. *)
Theorem removeServer_then_calls_rejected
  (s : State) (serverId toolName : string) (arguments : JSON) :
  let s' := (removeServer w serverId s).2 in
  listTools w serverId s' = (Throw not_connected_error, s') /\
  callTool w serverId toolName arguments s' = (Throw not_connected_error, s') /\
  getServerStatus serverId s' = false /\
  (forall other, other <> serverId ->
     JsMap.get other (servers s') = JsMap.get other (servers s)) /\
  JsMap.keys (servers s') = filter (fun k => k <> serverId) (JsMap.keys (servers s)).
Proof.
  intros s'.
  assert (Hservers : servers s' = JsMap.delete serverId (servers s))
    by apply removeServer_result.
  clearbody s'.
  assert (Hgone : JsMap.get serverId (servers s') = None).
  { rewrite Hservers. apply jsmap_get_delete_eq. }
  split_and!.
  - run. by rewrite Hgone.
  - run. by rewrite Hgone.
  - unfold getServerStatus. by rewrite Hgone.
  - intros other Hne. rewrite Hservers. by apply jsmap_get_delete_ne.
  - rewrite Hservers. apply jsmap_keys_delete.
Qed.

(** X5: in a consistent registry, [removeServer] of a registered id closes
    the client of that session, exactly once and as its only call (the
    process handle is never stored, so nothing is killed), and resolves with
    the entry deleted even when closing throws. *)
Theorem removeServer_closes_the_client
  (s : State) (serverId : string) (server : MCPServerProcess) :
  consistent s -> JsMap.get serverId (servers s) = Some server ->
  exists c,
    client server = Some c /\
    removeServer w serverId s =
      (Ok tt, {| servers := JsMap.delete serverId (servers s);
                 allocated := allocated s;
                 trace := trace s ++ [CallClose c] |}).
Proof.
  intros Hs Hget.
  destruct (consistent_lookup s serverId server Hs Hget)
    as (_ & _ & Hproc & c & Hc & _).
  exists c. split; [done|]. run. rewrite Hget. cbn. rewrite Hc, Hproc. cbn.
  by destruct (client_close w (trace s) c).
Qed.

(** X6: when the process starts, the id added by [addServer] is usable at
    once: its status is true and [listTools] reaches the client just created.
    The sessions of all other ids are untouched; an id that was new is
    appended to the iteration order, an id that was present keeps its place. *)
Theorem addServer_then_usable (s : State) (config : ServerConfig) :
  client_connect w (trace s) (S (allocated s)) (allocated s) config = Ok tt ->
  let s' := (addServer w config s).2 in
  getServerStatus (config_id config) s' = true /\
  trace (listTools w (config_id config) s').2 =
    trace s' ++ [CallListTools (S (allocated s))] /\
  (forall other, other <> config_id config ->
     JsMap.get other (servers s') = JsMap.get other (servers s)) /\
  JsMap.keys (servers s') =
    (if JsMap.get (config_id config) (servers s) is Some _
     then JsMap.keys (servers s)
     else JsMap.keys (servers s) ++ [config_id config]).
Proof.
  intros Hconnect s'. subst s'. rewrite (addServer_connected w _ _ Hconnect). cbn.
  split_and!.
  - unfold getServerStatus. cbn. by rewrite jsmap_get_set_eq.
  - run. rewrite jsmap_get_set_eq. cbn.
    by destruct (client_listTools w _ (S (allocated s))).
  - intros other Hne. by apply jsmap_get_set_ne.
  - destruct (JsMap.get (config_id config) (servers s)) eqn:Hget.
    + apply jsmap_keys_set_present. by eexists.
    + by apply jsmap_keys_set_absent.
Qed.

(** X7: in a consistent registry [getAllServers] lists the registered ids in
    iteration order, every one of them as connected, in agreement with
    [getServerStatus]. *)
Theorem getAllServers_reports_registry (s : State) :
  consistent s ->
  map info_id (getAllServers s) = JsMap.keys (servers s) /\
  Forall (fun info => info_isConnected info = true /\
                      getServerStatus (info_id info) s = true)
         (getAllServers s).
Proof.
  intros Hs. pose proof Hs as (Hwf & Hall & _). split.
  - unfold getAllServers, JsMap.values, JsMap.keys.
    rewrite <- !list_fmap_compose. apply Forall_fmap_ext_1.
    eapply Forall_impl; [exact Hall|]. by intros entry (Hid & _).
  - unfold getAllServers, JsMap.values. rewrite <- list_fmap_compose.
    apply Forall_fmap. apply Forall_forall. intros [k server] Hin. cbn.
    pose proof (jsmap_get_elem_of _ _ _ Hwf Hin) as Hget.
    destruct (consistent_lookup s k server Hs Hget) as (Hid & Hflag & _).
    split; [done|]. unfold getServerStatus. by rewrite Hid, Hget.
Qed.

(** X8: the result of [getAllTools] never lists a server twice: its server
    ids are pairwise distinct and follow the iteration order of the
    registry. *)
Theorem getAllTools_lists_each_server_once (s : State) :
  JsMap.wf (servers s) ->
  exists results,
    (getAllTools w s).1 = Ok results /\
    NoDup results.*1 /\
    results.*1 `sublist_of` JsMap.keys (servers s).
Proof.
  intros Hwf.
  destruct (getAllTools_frame w s Hwf) as (results & Hrun & _ & _ & Hsub).
  exists results. split_and!; [done | | done].
  by eapply sublist_NoDup.
Qed.

End ManagerCompositions.

Lemma registered_server_reaches_its_client_witness :
  ServerManager.getServerStatus "files" Scenario.with_files = true /\
  ServerManager.getServerStatus "web" Scenario.with_files = false /\
  ServerManager.trace
    (ServerManager.listTools Scenario.healthy "files" Scenario.with_files).2 =
    ServerManager.trace Scenario.with_files ++ [ServerManager.CallListTools 1].
Proof.
  pose proof with_files_consistent as Hs.
  destruct (registered_server_reaches_its_client Scenario.healthy
              Scenario.with_files "files" Hs) as [Hstatus Hreach].
  destruct (registered_server_reaches_its_client Scenario.healthy
              Scenario.with_files "web" Hs) as [Hweb _].
  split_and!.
  - apply Hstatus. by eexists.
  - destruct (ServerManager.getServerStatus "web" Scenario.with_files) eqn:H;
      [|done].
    destruct (proj1 Hweb eq_refl) as [x Hx]. discriminate Hx.
  - destruct (Hreach _ eq_refl) as (c & [= <-] & Hlist & _). exact Hlist.
Defined.

Lemma connected_calls_pass_through_witness :
  let '(r, s') :=
    ServerManager.callTool Scenario.healthy "files" "echo" (JStr "hello")
      Scenario.with_files in
  r = Ok (JStr "hello") /\
  ServerManager.servers s' = ServerManager.servers Scenario.with_files /\
  ServerManager.trace s' =
    [ServerManager.CallConnect 1 0 Scenario.files_config;
     ServerManager.CallTool 1 "echo" (JStr "hello")].
Proof.
  destruct (connected_calls_pass_through Scenario.healthy Scenario.with_files
              "files" "echo" (JStr "hello") _ 1 eq_refl eq_refl eq_refl)
    as [Hcall _].
  destruct (ServerManager.callTool Scenario.healthy "files" "echo" (JStr "hello")
              Scenario.with_files) as [r s'].
  destruct Hcall as (Hr & Hservers & Htrace & _). by split_and!.
Defined.

Lemma removeServer_then_calls_rejected_witness :
  let s' := (ServerManager.removeServer Scenario.healthy "files" Scenario.mixed).2 in
  ServerManager.listTools Scenario.healthy "files" s' =
    (Throw ServerManager.not_connected_error, s') /\
  JsMap.get "web" (ServerManager.servers s') =
    JsMap.get "web" (ServerManager.servers Scenario.mixed).
Proof.
  destruct (removeServer_then_calls_rejected Scenario.healthy Scenario.mixed
              "files" "echo" JNull) as (Hlist & _ & _ & Hother & _).
  split; [exact Hlist|]. by apply Hother.
Defined.

Lemma removeServer_closes_the_client_witness :
  ServerManager.removeServer Scenario.spawn_fails "files" Scenario.with_files =
    (Ok tt, {| ServerManager.servers := [];
               ServerManager.allocated := 2;
               ServerManager.trace :=
                 [ServerManager.CallConnect 1 0 Scenario.files_config;
                  ServerManager.CallClose 1] |}).
Proof.
  destruct (removeServer_closes_the_client Scenario.spawn_fails
              Scenario.with_files "files" _
              with_files_consistent eq_refl)
    as (c & [= <-] & Hrun).
  exact Hrun.
Defined.

Lemma addServer_then_usable_witness :
  let s' := (ServerManager.addServer Scenario.healthy Scenario.files_config
               Scenario.mixed).2 in
  ServerManager.getServerStatus "files" s' = true /\
  JsMap.keys (ServerManager.servers s') = ["files"; "web"] /\
  JsMap.get "web" (ServerManager.servers s') =
    JsMap.get "web" (ServerManager.servers Scenario.mixed).
Proof.
  destruct (addServer_then_usable Scenario.healthy Scenario.mixed
              Scenario.files_config eq_refl) as (Hstatus & _ & Hother & Hkeys).
  split_and!; [exact Hstatus | exact Hkeys | by apply Hother].
Defined.

Lemma getAllServers_reports_registry_witness :
  map ManagerQueries.info_id (ManagerQueries.getAllServers Scenario.with_files) =
    ["files"] /\
  Forall (fun info => ManagerQueries.info_isConnected info = true /\
                      ServerManager.getServerStatus
                        (ManagerQueries.info_id info) Scenario.with_files = true)
         (ManagerQueries.getAllServers Scenario.with_files).
Proof.
  exact (getAllServers_reports_registry Scenario.with_files
           with_files_consistent).
Defined.

Lemma getAllTools_lists_each_server_once_witness :
  exists results,
    (ServerManager.getAllTools Scenario.healthy Scenario.mixed).1 = Ok results /\
    NoDup results.*1 /\
    results.*1 `sublist_of` ["files"; "web"].
Proof.
  apply (getAllTools_lists_each_server_once Scenario.healthy Scenario.mixed).
  unfold JsMap.wf. cbn. apply NoDup_cons. split.
  - intros H%list_elem_of_singleton. discriminate H.
  - apply NoDup_singleton.
Defined.

(** ** The API routes *)
Section ApiRoutesSpec.
Import ServerManager ManagerQueries ApiRoutes.
Context (w : World).

Ltac run :=
  unfold servers_GET, servers_POST, servers_DELETE, tools_GET, tools_POST,
    bind, ret, throw, try_catch, gets;
  cbn.

Lemma truthy_Some (o : option string) (x : string) :
  o = Some x -> x <> EmptyString -> truthy o = true /\ default EmptyString o = x.
Proof.
  intros -> Hne. unfold truthy. by rewrite bool_decide_eq_false_2.
Qed.

Lemma getAllTools_loop_total (entries : list (string * MCPServerProcess)) :
  forall (acc : list (string * list Tool)) (s : State),
  exists results s',
    getAllTools_loop w entries acc s = (Ok results, s') /\
    servers s' = servers s.
Proof.
  induction entries as [|[serverId server] rest IH]; intros acc s; cbn.
  - by exists acc, s.
  - destruct (usable server); [|by apply IH].
    unfold bind at 1, try_catch, bind at 1.
    pose proof (listTools_frame w serverId s) as [Hservers _].
    destruct (listTools w serverId s) as [[tools|e] s1]; cbn in *.
    + destruct (IH (acc ++ [(serverId, tools)]) s1) as (r & s' & -> & Hs').
      exists r, s'. split; [done | congruence].
    + destruct (IH acc s1) as (r & s' & -> & Hs').
      exists r, s'. split; [done | congruence].
Qed.

Lemma getAllTools_total (s : State) :
  exists results s',
    getAllTools w s = (Ok results, s') /\ servers s' = servers s.
Proof.
  unfold getAllTools, bind at 1, gets. cbn. apply getAllTools_loop_total.
Qed.

(** X9: [POST /api/mcp/servers] answers a body that lacks [id], [name] or
    [command] (or has it empty) with status 400, and a body that cannot be
    parsed with status 500; in both cases the manager is not touched: no
    process is started and the registry is as before. *)
Theorem servers_POST_rejects_incomplete_body (s : State) :
  (forall body,
     truthy (post_id body) = false \/ truthy (post_name body) = false \/
     truthy (post_command body) = false ->
     servers_POST w (Ok body) s =
       (Ok (respond_error 400 "Missing required fields: id, name, command"), s)) /\
  (forall e,
     servers_POST w (Throw e) s = (Ok (respond_error 500 (message e)), s)).
Proof.
  split; [|done]. intros body H. run.
  destruct (truthy (post_id body)); [|done].
  destruct (truthy (post_name body)); [|done].
  destruct (truthy (post_command body)); [|done].
  by destruct H as [?|[?|?]].
Qed.

(** X10: for a complete body, [POST /api/mcp/servers] answers 200 with
    [{ success: true }] exactly when the process could be started, and the
    server is then registered as connected; otherwise it answers 500 with the
    message of the error as [error], and the registry is as before. *)
Theorem servers_POST_reports_connect_outcome
  (s : State) (body : AddServerBody) (serverId serverName serverCommand : string) :
  post_id body = Some serverId -> serverId <> EmptyString ->
  post_name body = Some serverName -> serverName <> EmptyString ->
  post_command body = Some serverCommand -> serverCommand <> EmptyString ->
  let config :=
    {| config_id := serverId; config_name := serverName;
       config_command := serverCommand;
       config_args := default [] (post_args body);
       config_env := Some (default [] (post_env body)) |} in
  let '(r, s') := servers_POST w (Ok body) s in
  match client_connect w (trace s) (S (allocated s)) (allocated s) config with
  | Ok _ =>
      r = Ok success /\ getServerStatus serverId s' = true
  | Throw e =>
      r = Ok (respond_error 500 (message e)) /\ servers s' = servers s
  end.
Proof.
  intros Hid Hid' Hname Hname' Hcommand Hcommand' config.
  destruct (truthy_Some _ _ Hid Hid') as [Ht1 Hd1].
  destruct (truthy_Some _ _ Hname Hname') as [Ht2 Hd2].
  destruct (truthy_Some _ _ Hcommand Hcommand') as [Ht3 Hd3].
  unfold servers_POST, try_catch. rewrite Ht1, Ht2, Ht3, Hd1, Hd2, Hd3. cbn.
  fold config. unfold bind at 1.
  destruct (client_connect w (trace s) (S (allocated s)) (allocated s) config)
    as [[]|e] eqn:Hconnect.
  - rewrite (addServer_connected w _ _ Hconnect). cbn. split; [done|].
    unfold getServerStatus. cbn. by rewrite jsmap_get_set_eq.
  - by rewrite (addServer_failed w _ _ _ Hconnect).
Qed.

(** X11: [DELETE /api/mcp/servers] answers 400 without an [id] parameter and
    leaves the manager alone; with an id it always answers 200 with
    [{ success: true }], whether or not the id was registered and whatever
    closing the client does, and afterwards the id is not registered while
    every other id keeps its session. *)
Theorem servers_DELETE_always_succeeds (s : State) (serverId : option string) :
  (truthy serverId = false ->
   servers_DELETE w serverId s = (Ok (respond_error 400 "Server ID is required"), s)) /\
  (forall removed,
     serverId = Some removed -> removed <> EmptyString ->
     exists s',
       servers_DELETE w serverId s = (Ok success, s') /\
       JsMap.get removed (servers s') = None /\
       forall other, other <> removed ->
         JsMap.get other (servers s') = JsMap.get other (servers s)).
Proof.
  split.
  - intros H. run. by rewrite H.
  - intros removed Hsome Hne.
    destruct (truthy_Some _ _ Hsome Hne) as [Ht Hd].
    unfold servers_DELETE, try_catch, bind. rewrite Ht, Hd. cbn [negb].
    destruct (removeServer_result w removed s) as [Hr Hservers].
    destruct (removeServer w removed s) as [r s']. cbn in *. subst r.
    exists s'. split; [done|]. rewrite Hservers. split.
    + apply jsmap_get_delete_eq.
    + intros other Hother. by apply jsmap_get_delete_ne.
Qed.

(** X12: [GET /api/mcp/tools] always answers, with status 200 or 500, and
    never changes the registry.  Without a [serverId] it answers 200 (the
    aggregation swallows the failures of single servers).  For a [serverId]
    that is not registered, or not connected, it answers 500 with the error
    'Server not found or not connected' and reaches no client. *)
Theorem tools_GET_answers (s : State) (serverId : option string) :
  exists response s',
    tools_GET w serverId s = (Ok response, s') /\
    servers s' = servers s /\
    (http_status response = 200%Z \/ http_status response = 500%Z) /\
    (truthy serverId = false -> http_status response = 200%Z) /\
    (forall requested,
       serverId = Some requested -> requested <> EmptyString ->
       usable_client (JsMap.get requested (servers s)) = None ->
       response = respond_error 500 "Server not found or not connected" /\
       s' = s).
Proof.
  unfold tools_GET, try_catch. destruct (truthy serverId) eqn:Htruthy.
  - unfold bind.
    pose proof (listTools_frame w (default EmptyString serverId) s) as [Hservers _].
    destruct (listTools w (default EmptyString serverId) s) as [[tools|e] s1] eqn:Hrun;
      cbn in *.
    + eexists _, s1. split_and!; [done | done | by left | done |].
      intros requested -> Hne Hguard. cbn in Hrun.
      unfold listTools, bind, gets, throw in Hrun. cbn in Hrun.
      by rewrite Hguard in Hrun.
    + eexists _, s1. split_and!; [done | done | by right | done |].
      intros requested -> Hne Hguard. cbn in Hrun.
      unfold listTools, bind, gets, throw in Hrun. cbn in Hrun.
      rewrite Hguard in Hrun. by injection Hrun as <- <-.
  - unfold bind. destruct (getAllTools_total s) as (results & s' & -> & Hservers).
    cbn. eexists _, s'. split_and!; [done | done | by left | done |].
    intros requested -> Hne. unfold truthy in Htruthy.
    by rewrite bool_decide_eq_false_2 in Htruthy.
Qed.

(** X13: [POST /api/mcp/tools] answers 400 when [serverId] or [toolName] is
    missing and 500 when the body cannot be parsed or the server is not
    registered or not connected, without reaching any client.  For a
    connected server the tool is called once, with [{}] as arguments when the
    body has none; the answer is 200 with the result, or 500 with the message
    of the client's error; the registry is as before. *)
Theorem tools_POST_dispatches_once (s : State) :
  (forall body,
     truthy (post_serverId body) = false \/ truthy (post_toolName body) = false ->
     tools_POST w (Ok body) s =
       (Ok (respond_error 400 "Missing required fields: serverId, toolName"), s)) /\
  (forall e, tools_POST w (Throw e) s = (Ok (respond_error 500 (message e)), s)) /\
  (forall body serverId toolName,
     post_serverId body = Some serverId -> serverId <> EmptyString ->
     post_toolName body = Some toolName -> toolName <> EmptyString ->
     let args := if json_truthy (post_arguments body)
                 then default (JObj []) (post_arguments body) else JObj [] in
     (post_arguments body = None -> args = JObj []) /\
     match usable_client (JsMap.get serverId (servers s)) with
     | None =>
         tools_POST w (Ok body) s =
           (Ok (respond_error 500 "Server not found or not connected"), s)
     | Some c =>
         tools_POST w (Ok body) s =
           (Ok match client_callTool w (trace s) c toolName args with
               | Ok result => respond (JObj [("result", result)])
               | Throw e => respond_error 500 (message e)
               end,
            {| servers := servers s; allocated := allocated s;
               trace := trace s ++ [CallTool c toolName args] |})
     end).
Proof.
  split_and!.
  - intros body H. run.
    destruct (truthy (post_serverId body)); [|done].
    destruct (truthy (post_toolName body)); [|done].
    by destruct H.
  - done.
  - intros body serverId toolName Hid Hid' Hname Hname' args.
    destruct (truthy_Some _ _ Hid Hid') as [Ht1 Hd1].
    destruct (truthy_Some _ _ Hname Hname') as [Ht2 Hd2].
    split; [by intros H; subst args; rewrite H|].
    unfold tools_POST, try_catch. rewrite Ht1, Ht2, Hd1, Hd2. cbn. fold args.
    unfold callTool, bind, gets, try_catch, call, throw, ret. cbn.
    destruct (usable_client (JsMap.get serverId (servers s))) as [c|]; [|done].
    cbn. by destruct (client_callTool w (trace s) c toolName args).
Qed.

End ApiRoutesSpec.

Lemma servers_POST_rejects_incomplete_body_witness :
  ApiRoutes.servers_POST Scenario.healthy
    (Ok {| ApiRoutes.post_id := Some "files"; ApiRoutes.post_name := Some "Files";
           ApiRoutes.post_command := None; ApiRoutes.post_args := None;
           ApiRoutes.post_env := None |})
    Scenario.fresh =
    (Ok (ApiRoutes.respond_error 400 "Missing required fields: id, name, command"),
     Scenario.fresh).
Proof.
  apply (servers_POST_rejects_incomplete_body Scenario.healthy Scenario.fresh).
  right. right. reflexivity.
Defined.

Lemma servers_POST_reports_connect_outcome_witness :
  let '(r, s') :=
    ApiRoutes.servers_POST Scenario.spawn_fails
      (Ok {| ApiRoutes.post_id := Some "files"; ApiRoutes.post_name := Some "Files";
             ApiRoutes.post_command := Some "python"; ApiRoutes.post_args := None;
             ApiRoutes.post_env := None |})
      Scenario.fresh in
  r = Ok (ApiRoutes.respond_error 500 "spawn python ENOENT") /\
  ServerManager.servers s' = ServerManager.servers Scenario.fresh.
Proof.
  apply (servers_POST_reports_connect_outcome Scenario.spawn_fails Scenario.fresh
           {| ApiRoutes.post_id := Some "files"; ApiRoutes.post_name := Some "Files";
              ApiRoutes.post_command := Some "python"; ApiRoutes.post_args := None;
              ApiRoutes.post_env := None |}
           "files" "Files" "python"); done.
Defined.

Lemma servers_DELETE_always_succeeds_witness :
  ApiRoutes.servers_DELETE Scenario.healthy None Scenario.with_files =
    (Ok (ApiRoutes.respond_error 400 "Server ID is required"), Scenario.with_files) /\
  exists s',
    ApiRoutes.servers_DELETE Scenario.healthy (Some "files") Scenario.with_files =
      (Ok ApiRoutes.success, s') /\
    JsMap.get "files" (ServerManager.servers s') = None.
Proof.
  destruct (servers_DELETE_always_succeeds Scenario.healthy Scenario.with_files None)
    as [Hmissing _].
  destruct (servers_DELETE_always_succeeds Scenario.healthy Scenario.with_files
              (Some "files")) as [_ Hremoved].
  split; [exact (Hmissing eq_refl)|].
  destruct (Hremoved "files" eq_refl ltac:(done)) as (s' & Hrun & Hgone & _).
  by exists s'.
Defined.

Lemma tools_GET_answers_witness :
  ApiRoutes.tools_GET Scenario.healthy (Some "web") Scenario.mixed =
    (Ok (ApiRoutes.respond_error 500 "Server not found or not connected"),
     Scenario.mixed).
Proof.
  destruct (tools_GET_answers Scenario.healthy Scenario.mixed (Some "web"))
    as (response & s' & Hrun & _ & _ & _ & Hguard).
  destruct (Hguard "web" eq_refl ltac:(done) eq_refl) as [-> ->]. exact Hrun.
Defined.

Lemma tools_POST_dispatches_once_witness :
  ApiRoutes.tools_POST Scenario.healthy
    (Ok {| ApiRoutes.post_serverId := Some "files";
           ApiRoutes.post_toolName := Some "echo";
           ApiRoutes.post_arguments := None |})
    Scenario.mixed =
    (Ok (ApiRoutes.respond (JObj [("result", JObj [])])),
     {| ServerManager.servers := ServerManager.servers Scenario.mixed;
        ServerManager.allocated := 4;
        ServerManager.trace := [ServerManager.CallTool 1 "echo" (JObj [])] |}).
Proof.
  destruct (tools_POST_dispatches_once Scenario.healthy Scenario.mixed)
    as (_ & _ & Hcall).
  destruct (Hcall {| ApiRoutes.post_serverId := Some "files";
                     ApiRoutes.post_toolName := Some "echo";
                     ApiRoutes.post_arguments := None |}
                  "files" "echo" eq_refl ltac:(done) eq_refl ltac:(done))
    as [_ Hrun].
  exact Hrun.
Defined.

(** ** [MCPClient] and [MCPClientManager]: connection life cycle *)
Section ClientLifeCycle.
Import BrowserClient ClientExtras.
Context (w : World).

Ltac run :=
  unfold connect, disconnect, listTools, sse_probe, bind, ret, throw, try_catch,
    gets, modify, fetch, set_this, set_isConnected;
  cbn.

Lemma connect_effect (s : Env MCPClient) :
  let '(r, s') := connect w s in
  isConnected (this s') = is_ok r /\
  config (this s') = config (this s) /\
  exists sent, history s' = history s ++ sent /\ length sent <= 1.
Proof.
  run. destruct (Types.transport (config (this s))) as [[| |]|]; cbn.
  - destruct (network w (history s) _) as [response|e]; cbn.
    + destruct (ok response); cbn.
      * split_and!; [done | done |]. eexists [_]. by split.
      * destruct (json response); cbn;
          (split_and!; [done | done |]; eexists [_]; by split).
    + split_and!; [done | done |]. eexists [_]. by split.
  - destruct (truthy (Types.url (config (this s)))); cbn.
    + destruct (network w (history s) _) as [response|e]; cbn.
      * destruct (negb (ok response) && negb (bool_decide (status response = 405%Z)));
          cbn; (split_and!; [done | done |]; eexists [_]; by split).
      * split_and!; [done | done |]. eexists [_]. by split.
    + split_and!; [done | done |]. exists []. rewrite app_nil_r. split; [done | cbn; lia].
  - destruct (truthy (Types.url (config (this s)))); cbn.
    + destruct (negb (String.prefix "ws://" _) && negb (String.prefix "wss://" _));
        cbn; (split_and!; [done | done |]; exists []; rewrite app_nil_r; split; [done | cbn; lia]).
    + split_and!; [done | done |]. exists []. rewrite app_nil_r. split; [done | cbn; lia].
  - split_and!; [done | done |]. exists []. rewrite app_nil_r. split; [done | cbn; lia].
Qed.

(** X14: after [connect] the client's flag says how it ended: true when it
    resolved, false when it threw.  The configuration is never changed and
    at most one request is sent. *)
Theorem connect_flag_tells_outcome (s : Env MCPClient) :
  let '(r, s') := connect w s in
  isConnected (this s') = is_ok r /\
  config (this s') = config (this s) /\
  exists sent, history s' = history s ++ sent /\ length sent <= 1.
Proof. apply connect_effect. Qed.

(** X15: for a [websocket] server [connect] sends nothing: it resolves
    exactly when the url is present, not empty, and starts with [ws://] or
    [wss://]; a missing url and a wrong scheme are reported by their own
    errors. *)
Theorem connect_websocket_checks_the_url_only (s : Env MCPClient) :
  Types.transport (config (this s)) = Some Types.websocket ->
  let '(r, s') := connect w s in
  history s' = history s /\
  (r = Ok tt <->
   exists url, Types.url (config (this s)) = Some url /\ url <> EmptyString /\
               (String.prefix "ws://" url = true \/
                String.prefix "wss://" url = true)) /\
  (truthy (Types.url (config (this s))) = false ->
   r = Throw (MkError "WebSocket URL is required")) /\
  (forall url, Types.url (config (this s)) = Some url -> url <> EmptyString ->
     String.prefix "ws://" url = false -> String.prefix "wss://" url = false ->
     r = Throw (MkError "WebSocket URL must start with ws:// or wss://")).
Proof.
  intros Htransport. run. rewrite Htransport. cbn. unfold truthy.
  destruct (Types.url (config (this s))) as [url|]; cbn.
  - destruct (bool_decide (url = EmptyString)) eqn:Hempty; cbn.
    + apply bool_decide_eq_true in Hempty. split_and!; [done | | done |].
      * split; [done|]. intros (u & [= <-] & Hne & _). done.
      * intros u [= <-] Hne. done.
    + apply bool_decide_eq_false in Hempty.
      destruct (String.prefix "ws://" url) eqn:Hws; cbn.
      * split_and!; [done | | done |].
        -- split; [|done]. intros _. exists url. split_and!; [done | done | by left].
        -- intros u [= <-] _ H. congruence.
      * destruct (String.prefix "wss://" url) eqn:Hwss; cbn.
        -- split_and!; [done | | done |].
           ++ split; [|done]. intros _. exists url.
              split_and!; [done | done | by right].
           ++ intros u [= <-] _ _ H. congruence.
        -- split_and!; [done | | done | done].
           split; [done|]. intros (u & [= <-] & _ & [H|H]); congruence.
  - split_and!; [done | | done |].
    + split; [done|]. by intros (u & H & _).
    + by intros u H.
Qed.

(** X16: for a [stdio] server [connect] sends one POST to /api/mcp/servers
    and resolves exactly when it is answered with a status in 200-299.  A
    refusal is thrown with the [error] text of its body, or with the default
    text when the body has none; a network error is thrown as it is. *)
Theorem connect_stdio_asks_the_server_route (s : Env MCPClient) :
  Types.transport (config (this s)) = Some Types.stdio ->
  let request := connect_stdio_request (config (this s)) in
  let '(r, s') := connect w s in
  history s' = history s ++ [request] /\
  req_method request = POST /\ req_url request = "/api/mcp/servers" /\
  (r = Ok tt <->
   exists response, network w (history s) request = Ok response /\
                    ok response = true) /\
  (forall e, network w (history s) request = Throw e -> r = Throw e) /\
  (forall response body,
     network w (history s) request = Ok response -> ok response = false ->
     json response = Ok body ->
     r = Throw (MkError (or_else (body_error body)
                                 "Failed to connect to stdio MCP server"))).
Proof.
  intros Htransport request. run. rewrite Htransport. cbn. fold request.
  destruct (network w (history s) request) as [response|e]; cbn.
  - destruct (ok response) eqn:Hok; cbn.
    + split_and!; try done.
      * split; [|done]. intros _. by exists response.
      * intros r b [= <-]. congruence.
    + destruct (json response) as [body|e] eqn:Hjson; cbn.
      * split_and!; try done.
        -- split; [done|]. intros (r & [= <-] & H). congruence.
        -- intros r b [= <-] _ Hb. rewrite Hjson in Hb. by injection Hb as <-.
      * split_and!; try done.
        -- split; [done|]. intros (r & [= <-] & H). congruence.
        -- intros r b [= <-] _ Hb. congruence.
  - split_and!; try done.
    + split; [done|]. by intros (r & H & _).
    + by intros e' [= <-].
Qed.

(** X17: [disconnect] always resolves, whatever the network does; it sends
    one DELETE request for the client's id and leaves the client marked as
    not connected. *)
Theorem disconnect_always_resolves (s : Env MCPClient) :
  disconnect w s =
    (Ok tt,
     {| this := {| config := config (this s); isConnected := false |};
        history := history s ++ [disconnect_request w (config (this s))] |}) /\
  req_method (disconnect_request w (config (this s))) = DELETE.
Proof.
  split; [|done]. run. by destruct (network w (history s) _).
Qed.

(** X18: [listTools] of a client sends one GET request and never changes the
    client.  It resolves exactly when the request is answered with a status
    in 200-299 and a body holding a [tools] array, and then returns one tool
    per element, in order, with the reported names and with an empty
    description where none was given. *)
Theorem client_listTools_maps_the_reported_tools (s : Env MCPClient) :
  let request := listTools_request w (config (this s)) in
  let '(r, s') := listTools w s in
  this s' = this s /\
  history s' = history s ++ [request] /\
  req_method request = GET /\
  (forall tools,
     r = Ok tools <->
     exists response data raw,
       network w (history s) request = Ok response /\ ok response = true /\
       json response = Ok data /\ body_tools data = Some raw /\
       tools = map to_MCPTool raw) /\
  (forall tools, r = Ok tools ->
     exists raw, map Types.tool_name tools = map raw_name raw /\
                 length tools = length raw) /\
  (forall response, network w (history s) request = Ok response ->
     ok response = false -> r = Throw (MkError "Failed to list tools")).
Proof.
  intros request. run. fold request.
  destruct (network w (history s) request) as [response|e]; cbn.
  - destruct (ok response) eqn:Hok; cbn.
    + destruct (json response) as [data|e] eqn:Hjson; cbn.
      * destruct (body_tools data) as [raw|] eqn:Htools; cbn.
        -- split_and!; try done.
           ++ intros tools. split.
              ** intros [= <-]. by exists response, data, raw.
              ** intros (r & d & raw' & [= <-] & _ & Hd & Hraw & ->).
                 rewrite Hjson in Hd. injection Hd as <-. congruence.
           ++ intros tools [= <-]. exists raw.
              rewrite length_map. split; [|done].
              rewrite <- list_fmap_compose. done.
           ++ intros r [= <-]. congruence.
        -- split_and!; try done.
           ++ intros tools. split; [done|].
              intros (r & d & raw' & [= <-] & _ & Hd & Hraw & _).
              rewrite Hjson in Hd. injection Hd as <-. congruence.
           ++ intros r [= <-]. congruence.
      * split_and!; try done.
        -- intros tools. split; [done|].
           intros (r & d & raw' & [= <-] & _ & Hd & _). congruence.
        -- intros r [= <-]. congruence.
    + split_and!; try done.
      intros tools. split; [done|].
      intros (r & d & raw' & [= <-] & H & _). congruence.
  - split_and!; try done.
    intros tools. split; [done|]. by intros (r & d & raw' & H & _).
Qed.

Lemma disconnect_run (s : Env MCPClient) :
  disconnect w s =
    (Ok tt,
     {| this := {| config := config (this s); isConnected := false |};
        history := history s ++ [disconnect_request w (config (this s))] |}).
Proof. run. by destruct (network w (history s) _). Qed.

(** What [MCPClientManager.addServer] leaves behind. *)
Lemma manager_addServer_run (config : Types.MCPServerConfig)
  (s : Env MCPClientManager) :
  exists r sent,
    (connect w {| this := new_MCPClient config; history := history s |}).1 = r /\
    length sent <= 1 /\
    addServer w config s =
      (r, {| this := match r with
                     | Ok _ =>
                         JsMap.set (Types.id config)
                           {| BrowserClient.config := config; isConnected := true |}
                           (this s)
                     | Throw _ => this s
                     end;
             history := history s ++ sent |}).
Proof.
  unfold addServer, bind, on, modify, set_this.
  pose proof (connect_effect {| this := new_MCPClient config; history := history s |})
    as Heff.
  destruct (connect w {| this := new_MCPClient config; history := history s |})
    as [[[]|e] [client h]]; cbn in *;
    destruct Heff as (Hflag & Hconfig & sent & -> & Hlen).
  - exists (Ok tt), sent. split_and!; [done | done |].
    destruct client as [c f]. cbn in *. by subst.
  - exists (Throw e), sent. by split_and!.
Qed.

(** X19: [MCPClientManager.addServer] registers the client only when
    [connect] resolved, and then as connected under the id of its
    configuration, leaving the clients of other ids alone; when [connect]
    throws, the error is passed on and the manager is unchanged. *)
Theorem manager_addServer_registers_on_success
  (config : Types.MCPServerConfig) (s : Env MCPClientManager) :
  let '(r, s') := addServer w config s in
  r = (connect w {| this := new_MCPClient config; history := history s |}).1 /\
  match r with
  | Ok _ =>
      JsMap.get (Types.id config) (this s') =
        Some {| BrowserClient.config := config; isConnected := true |} /\
      (forall other, other <> Types.id config ->
         JsMap.get other (this s') = JsMap.get other (this s))
  | Throw _ => this s' = this s
  end.
Proof.
  destruct (manager_addServer_run config s) as (r & sent & Hr & _ & ->).
  split; [done|]. destruct r; cbn; [|done]. split.
  - apply jsmap_get_set_eq.
  - intros other Hne. by apply jsmap_get_set_ne.
Qed.

Lemma manager_removeServer_run (serverId : string) (s : Env MCPClientManager) :
  removeServer w serverId s =
    match JsMap.get serverId (this s) with
    | None => (Ok tt, s)
    | Some client =>
        (Ok tt, {| this := JsMap.delete serverId (this s);
                   history := history s ++ [disconnect_request w (config client)] |})
    end.
Proof.
  unfold removeServer, bind at 1, gets. cbn.
  destruct (JsMap.get serverId (this s)) as [client|]; [|done].
  unfold bind, on. by rewrite disconnect_run.
Qed.

(** X20: [MCPClientManager.removeServer] always resolves.  For an id without
    a client it does nothing and sends nothing; otherwise it sends the one
    DELETE request of that client and drops the entry, whatever the network
    answers, leaving the clients of other ids alone. *)
Theorem manager_removeServer_always_resolves
  (serverId : string) (s : Env MCPClientManager) :
  (JsMap.get serverId (this s) = None -> removeServer w serverId s = (Ok tt, s)) /\
  (forall client,
     JsMap.get serverId (this s) = Some client ->
     let '(r, s') := removeServer w serverId s in
     r = Ok tt /\
     JsMap.get serverId (this s') = None /\
     (forall other, other <> serverId ->
        JsMap.get other (this s') = JsMap.get other (this s)) /\
     history s' = history s ++ [disconnect_request w (config client)]).
Proof.
  rewrite manager_removeServer_run. split.
  - by intros ->.
  - intros client ->. cbn. split_and!; try done.
    + apply jsmap_get_delete_eq.
    + intros other Hne. by apply jsmap_get_delete_ne.
Qed.

Lemma getServerTools_this (serverId : string) (s : Env MCPClientManager) :
  this (getServerTools w serverId s).2 = this s.
Proof.
  rewrite getServerTools_run.
  destruct (JsMap.get serverId (this s)) as [client|]; [|done].
  by destruct (isConnected client).
Qed.

(** X21: every client a manager holds is connected and stored under the id
    of its configuration, and the keys are unique: this holds for the empty
    manager and is kept by [addServer], [removeServer] and [getServerTools].
    In such a manager [getServerTools] asks the server for every registered
    id (the early return is taken for absent ids only). *)
Theorem manager_keeps_clients_connected :
  all_connected JsMap.empty /\
  (forall (s : Env MCPClientManager),
     all_connected (this s) ->
     (forall config, all_connected (this (addServer w config s).2)) /\
     (forall serverId, all_connected (this (removeServer w serverId s).2)) /\
     (forall serverId, all_connected (this (getServerTools w serverId s).2)) /\
     (forall serverId client,
        JsMap.get serverId (this s) = Some client ->
        Types.id (config client) = serverId /\
        history (getServerTools w serverId s).2 =
          history s ++ [listTools_request w (config client)])).
Proof.
  split.
  - split; [apply NoDup_nil_2 | done].
  - intros s [Hwf Hall]. split_and!.
    + intros config.
      destruct (manager_addServer_run config s) as (r & sent & _ & _ & ->).
      destruct r; cbn; [|done]. split.
      * by apply jsmap_wf_set.
      * by apply jsmap_Forall_set.
    + intros serverId. rewrite manager_removeServer_run.
      destruct (JsMap.get serverId (this s)); cbn; [|done]. split.
      * by apply jsmap_wf_delete.
      * by apply jsmap_Forall_delete.
    + intros serverId. by rewrite getServerTools_this.
    + intros serverId client Hget.
      pose proof (jsmap_get_Some_elem_of _ _ _ Hget) as Hin.
      rewrite Forall_forall in Hall. destruct (Hall _ Hin) as [Hflag Hid].
      cbn in Hflag, Hid. split; [done|].
      by rewrite getServerTools_run, Hget, Hflag.
Qed.

(** X22: when the server answers the tool listing of a connected client,
    [getServerTools] resolves to the reported tool names, in the reported
    order. *)
Theorem getServerTools_returns_reported_names
  (serverId : string) (s : Env MCPClientManager) (client : MCPClient)
  (response : Response Body) (data : Body) (raw : list RawTool) :
  JsMap.get serverId (this s) = Some client ->
  isConnected client = true ->
  network w (history s) (listTools_request w (config client)) = Ok response ->
  ok response = true ->
  json response = Ok data ->
  body_tools data = Some raw ->
  (getServerTools w serverId s).1 = Ok (map raw_name raw).
Proof.
  intros Hget Hflag Hnet Hok Hjson Htools.
  rewrite getServerTools_run, Hget, Hflag. cbn.
  run. rewrite Hnet. cbn. rewrite Hok. cbn. rewrite Hjson, Htools. cbn.
  by rewrite <- list_fmap_compose.
Qed.

Lemma disconnect_each_run (clients : list MCPClient) :
  forall (s : Env MCPClientManager),
    disconnect_each w clients s =
      (Ok tt,
       {| this := this s;
          history :=
            history s ++ map (fun c => disconnect_request w (config c)) clients |}).
Proof.
  induction clients as [|client rest IH]; intros s; cbn.
  - rewrite app_nil_r. by destruct s.
  - unfold bind, on. rewrite disconnect_run. cbn. rewrite IH. cbn.
    by rewrite <- app_assoc.
Qed.

(** X23: [disconnectAll] always resolves and leaves the manager empty; it
    sends one DELETE request per client, in the iteration order of the map,
    and nothing else. *)
Theorem disconnectAll_empties_the_manager (s : Env MCPClientManager) :
  let '(r, s') := disconnectAll w s in
  r = Ok tt /\
  this s' = JsMap.empty /\
  history s' =
    history s ++ map (fun c => disconnect_request w (config c)) (getAllClients (this s)) /\
  (forall serverId, (getServerTools w serverId s').1 = Ok [] /\
                    (getServerTools w serverId s').2 = s').
Proof.
  unfold disconnectAll, bind at 1, gets. cbn. unfold bind.
  rewrite disconnect_each_run. cbn. split_and!; try done.
Qed.

End ClientLifeCycle.

Lemma connect_websocket_checks_the_url_only_witness :
  let '(r, s') :=
    BrowserClient.connect BrowserScenario.offline
      {| this := BrowserClient.new_MCPClient MoreScenarios.socket_server;
         history := [] |} in
  history s' = [] /\ r = Ok tt.
Proof.
  pose proof (connect_websocket_checks_the_url_only BrowserScenario.offline
                {| this := BrowserClient.new_MCPClient MoreScenarios.socket_server;
                   history := [] |} eq_refl) as H.
  destruct (BrowserClient.connect BrowserScenario.offline _) as [r s'].
  destruct H as (Hhistory & Hok & _). split; [exact Hhistory|].
  apply Hok. exists "ws://localhost:9000/mcp". split_and!; [done | done | by left].
Defined.

Lemma connect_stdio_asks_the_server_route_witness :
  let '(r, s') :=
    BrowserClient.connect MoreScenarios.refusing
      {| this := BrowserClient.new_MCPClient BrowserScenario.files_server;
         history := [] |} in
  r = Throw (MkError "spawn python ENOENT") /\
  history s' =
    [BrowserClient.connect_stdio_request BrowserScenario.files_server].
Proof.
  pose proof (connect_stdio_asks_the_server_route MoreScenarios.refusing
                {| this := BrowserClient.new_MCPClient BrowserScenario.files_server;
                   history := [] |} eq_refl) as H.
  cbv zeta in H.
  destruct (BrowserClient.connect MoreScenarios.refusing _) as [r s'].
  destruct H as (Hhistory & _ & _ & _ & _ & Hrefused).
  split; [|exact Hhistory]. exact (Hrefused _ _ eq_refl eq_refl eq_refl).
Defined.

Lemma client_listTools_maps_the_reported_tools_witness :
  let '(r, s') :=
    BrowserClient.listTools MoreScenarios.serving
      {| this := {| BrowserClient.config := BrowserScenario.files_server;
                    BrowserClient.isConnected := true |};
         history := [] |} in
  r = Ok [ {| Types.tool_name := "file_read";
              Types.tool_description := "Read a file";
              Types.tool_inputSchema := None |};
           {| Types.tool_name := "file_list";
              Types.tool_description := EmptyString;
              Types.tool_inputSchema := None |} ].
Proof.
  pose proof (client_listTools_maps_the_reported_tools MoreScenarios.serving
                {| this := {| BrowserClient.config := BrowserScenario.files_server;
                              BrowserClient.isConnected := true |};
                   history := [] |}) as H.
  cbv zeta in H.
  destruct (BrowserClient.listTools MoreScenarios.serving _) as [r s'].
  destruct H as (_ & _ & _ & Hok & _).
  apply Hok. eexists _, _, _. split_and!; reflexivity.
Defined.

Lemma manager_removeServer_always_resolves_witness :
  BrowserClient.removeServer BrowserScenario.offline "unknown"
    MoreScenarios.one_client = (Ok tt, MoreScenarios.one_client) /\
  let '(r, s') :=
    BrowserClient.removeServer BrowserScenario.offline "demo-server-1"
      MoreScenarios.one_client in
  r = Ok tt /\ this s' = [] /\
  history s' =
    [BrowserClient.disconnect_request BrowserScenario.offline
       BrowserScenario.files_server].
Proof.
  split.
  - apply (manager_removeServer_always_resolves BrowserScenario.offline "unknown"
             MoreScenarios.one_client). reflexivity.
  - pose proof (proj2 (manager_removeServer_always_resolves BrowserScenario.offline
                         "demo-server-1" MoreScenarios.one_client) _ eq_refl) as H.
    destruct (BrowserClient.removeServer BrowserScenario.offline "demo-server-1"
                MoreScenarios.one_client) as [r [m h]] eqn:Hrun.
    destruct H as (Hr & _ & _ & Hh). split_and!; [done | | done].
    by injection Hrun as _ <- _.
Defined.

Lemma manager_keeps_clients_connected_witness :
  ClientExtras.all_connected
    (this (BrowserClient.addServer MoreScenarios.serving
             BrowserScenario.files_server
             {| this := JsMap.empty; history := [] |}).2) /\
  this (BrowserClient.addServer MoreScenarios.serving
          BrowserScenario.files_server
          {| this := JsMap.empty; history := [] |}).2 =
    this MoreScenarios.one_client.
Proof.
  destruct (manager_keeps_clients_connected MoreScenarios.serving) as [Hempty Hkeep].
  split; [|reflexivity].
  exact (proj1 (Hkeep {| this := JsMap.empty; history := [] |} Hempty)
               BrowserScenario.files_server).
Defined.

Lemma getServerTools_returns_reported_names_witness :
  (BrowserClient.getServerTools MoreScenarios.serving "demo-server-1"
     MoreScenarios.one_client).1 = Ok ["file_read"; "file_list"].
Proof.
  exact (getServerTools_returns_reported_names MoreScenarios.serving
           "demo-server-1" MoreScenarios.one_client _ _ _ _
           eq_refl eq_refl eq_refl eq_refl eq_refl eq_refl).
Defined.

(** ** [BridgeMCPClient]: the health check *)
Section BridgeHealth.
Import Bridge.
Context (w : World).

Lemma checkConnection_run (s : Env BridgeMCPClient) :
  checkConnection w s =
    let reachable :=
      match w (history s) (health_request (this s)) with
      | Ok response => ok response
      | Throw _ => false
      end in
    (Ok reachable,
     {| this := {| bridgeUrl := bridgeUrl (this s); isConnected := reachable |};
        history := history s ++ [health_request (this s)] |}).
Proof.
  unfold checkConnection, bind, try_catch, gets, fetch, modify, set_this,
    set_isConnected, ret. cbn.
  destruct (w (history s) (health_request (this s))) as [response|e]; cbn; [|done].
  by destruct (ok response).
Qed.

(** X24: [checkConnection] always resolves.  It sends one GET request to the
    [/health] path of the bridge url, answers true exactly when that request
    is answered with a status in 200-299, and caches its answer in the
    client's flag, overwriting what was cached before. *)
Theorem checkConnection_caches_its_answer (s : Env BridgeMCPClient) :
  let request := health_request (this s) in
  exists reachable s',
    checkConnection w s = (Ok reachable, s') /\
    getConnectionStatus (this s') = reachable /\
    bridgeUrl (this s') = bridgeUrl (this s) /\
    history s' = history s ++ [request] /\
    req_method request = GET /\
    req_url request = (bridgeUrl (this s) ++ "/health")%string /\
    (reachable = true <->
     exists response, w (history s) request = Ok response /\ ok response = true).
Proof.
  intros request. rewrite checkConnection_run. cbn. fold request.
  eexists _, _. split_and!; try done.
  destruct (w (history s) request) as [response|e].
  - split; [by exists response|]. by intros (r & [= <-] & ?).
  - split; [done|]. by intros (r & ? & _).
Qed.

(** X25: the operations follow the last health check.  After a check that
    answered false every operation returns its demo payload and sends
    nothing; after a check that answered true every operation sends its
    file-operations request to the bridge. *)
Theorem operations_follow_the_last_check
  (s : Env BridgeMCPClient) (op : Operation) (path : string) :
  let '(checked, s1) := checkConnection w s in
  let '(result, s2) := operation w op path s1 in
  (checked = Ok false -> result = Ok (synthetic op path) /\ s2 = s1) /\
  (checked = Ok true ->
   history s2 = history s1 ++ [operation_request (this s) op path] /\
   req_method (operation_request (this s) op path) = POST /\
   req_url (operation_request (this s) op path) =
     (bridgeUrl (this s) ++ "/api/mcp/file-operations")%string).
Proof.
  rewrite checkConnection_run. cbv beta iota zeta.
  rewrite operation_run. cbn.
  destruct (match w (history s) (health_request (this s)) with
            | Ok response => ok response
            | Throw _ => false
            end); cbn; by split.
Qed.

End BridgeHealth.

Lemma operations_follow_the_last_check_witness :
  let '(checked, s1) :=
    Bridge.checkConnection BridgeScenario.unavailable BridgeScenario.checked in
  let '(result, s2) :=
    Bridge.operation BridgeScenario.unavailable Bridge.read_file "/any/file" s1 in
  checked = Ok false /\
  result = Ok (Bridge.getDemoFileContent "/any/file") /\ s2 = s1.
Proof.
  pose proof (operations_follow_the_last_check BridgeScenario.unavailable
                BridgeScenario.checked Bridge.read_file "/any/file") as H.
  destruct (Bridge.checkConnection BridgeScenario.unavailable BridgeScenario.checked)
    as [checked s1] eqn:Hcheck.
  destruct (Bridge.operation BridgeScenario.unavailable Bridge.read_file
              "/any/file" s1) as [result s2].
  assert (Hfalse : checked = Ok false) by (by injection Hcheck as <- _).
  split; [exact Hfalse|]. exact (proj1 H Hfalse).
Defined.

(** ** The store: adding, removing and refreshing *)
Section StoreLifeCycle.
Import Store StoreChecks.
Context (w : BrowserClient.World).

Lemma refreshMCPTools_loop_idle (servers : list Types.MCPServerConfig) :
  Forall (fun server => Types.isConnected server = false) servers ->
  forall (totalTools : list string) (s : Env AppState),
    refreshMCPTools_loop w servers totalTools s = (Ok totalTools, s).
Proof.
  induction 1 as [|server rest Hflag _ IH]; intros totalTools s; cbn; [done|].
  rewrite Hflag. apply IH.
Qed.

Lemma existsb_isConnected_false (servers : list Types.MCPServerConfig) :
  existsb Types.isConnected servers = false <->
  Forall (fun server => Types.isConnected server = false) servers.
Proof.
  induction servers as [|server rest IH]; cbn.
  - split; [by constructor | done].
  - rewrite orb_false_iff, Forall_cons, IH. done.
Qed.

(** X26: [refreshMCPTools] always resolves and writes nothing but
    [availableTools].  The list it writes is empty exactly when no configured
    server is marked connected, and in that case nothing is sent; with a
    server marked connected and no tool reported, it is the fixed list of
    simulated tools. *)
Theorem refreshMCPTools_empty_iff_nothing_connected (s : Env AppState) :
  exists tools sent,
    refreshMCPTools w s =
      (Ok tt, {| this := set_availableTools tools (this s);
                 history := history s ++ sent |}) /\
    (tools = [] <->
     Forall (fun server => Types.isConnected server = false) (mcpServers (this s))) /\
    (Forall (fun server => Types.isConnected server = false) (mcpServers (this s)) ->
     sent = []) /\
    (forall reported,
       (refreshMCPTools_loop w (mcpServers (this s)) [] s).1 = Ok reported ->
       existsb Types.isConnected (mcpServers (this s)) = true ->
       tools = if bool_decide (reported = []) then simulated_tools else reported).
Proof.
  unfold refreshMCPTools, try_catch, bind at 1, gets. cbn. unfold bind at 1.
  destruct (existsb Types.isConnected (mcpServers (this s))) eqn:Hany.
  - destruct (refreshMCPTools_loop_spec w (mcpServers (this s)) [] s)
      as (reported & sent & Hrun & _).
    rewrite Hrun. cbn. unfold set, modify, set_this. cbn.
    eexists _, sent. split; [done|].
    assert (Hnot : ~ Forall (fun server => Types.isConnected server = false)
                     (mcpServers (this s))).
    { intros H%existsb_isConnected_false. congruence. }
    split_and!.
    + split; [|done]. destruct reported; cbn; [done | done].
    + done.
    + intros reported' [= <-] _. by destruct reported.
  - apply existsb_isConnected_false in Hany as Hall.
    rewrite (refreshMCPTools_loop_idle _ Hall). cbn.
    unfold set, modify, set_this. cbn.
    exists [], []. rewrite app_nil_r. split_and!; try done.
Qed.

(** What the manager's [addServer] does, seen from the store. *)
Lemma on_manager_addServer (config : Types.MCPServerConfig) (s : Env AppState) :
  exists r sent,
    (BrowserClient.connect w
       {| this := BrowserClient.new_MCPClient config; history := history s |}).1 = r /\
    on_manager (BrowserClient.addServer w config) s =
      (r, {| this :=
               match r with
               | Ok _ =>
                   set_mcpClientManager
                     (JsMap.set (Types.id config)
                        {| BrowserClient.config := config;
                           BrowserClient.isConnected := true |}
                        (mcpClientManager (this s)))
                     (this s)
               | Throw _ => this s
               end;
             history := history s ++ sent |}).
Proof.
  unfold on_manager.
  destruct (manager_addServer_run w config
              {| this := mcpClientManager (this s); history := history s |})
    as (r & sent & Hr & _ & ->).
  exists r, sent. split; [done|]. cbn. destruct r; [done|].
  by rewrite set_mcpClientManager_same.
Qed.

Lemma find_id_None (config : Types.MCPServerConfig) (servers : list Types.MCPServerConfig) :
  find (fun s0 => bool_decide (Types.id s0 = Types.id config)) servers = None <->
  Types.id config ∉ map Types.id servers.
Proof.
  induction servers as [|server rest IH]; cbn.
  - split; [intros _; apply not_elem_of_nil | done].
  - rewrite not_elem_of_cons.
    destruct (bool_decide (Types.id server = Types.id config)) eqn:H.
    + apply bool_decide_eq_true in H. split; [done | intros [? _]; congruence].
    + apply bool_decide_eq_false in H. rewrite IH.
      split; [intros ?; split; [congruence | done] | by intros [_ ?]].
Qed.

(** Past validation and the duplicate check, [addMCPServer] is its
    [try]/[catch]/[finally]. *)
Lemma addMCPServer_checked (config : Types.MCPServerConfig) (s : Env AppState) :
  passes_validation config ->
  Types.id config ∉ server_ids (this s) ->
  addMCPServer w config s =
    try_finally
      (try_catch
         (bind (set (fun s => set_error None (set_isLoading true s)))
            (fun _ =>
               bind (on_manager (BrowserClient.addServer w config))
                 (fun _ =>
                    bind (gets (fun s => mcpServers (this s)))
                      (fun servers =>
                         bind (set (set_mcpServers
                                      (servers ++ [Types.with_isConnected true config])))
                           (fun _ => refreshMCPTools w)))))
         (fun error =>
            bind (set (set_error (Some (message error)))) (fun _ => throw error)))
      (set_this (set_isLoading false)) s.
Proof.
  intros (Hid & Hname & Hcommand & Hurl) Hfresh%find_id_None.
  assert (Hstdio : bool_decide (Types.transport config = Some Types.stdio)
                   && negb (truthy (Types.command config)) = false).
  { destruct (bool_decide (Types.transport config = Some Types.stdio)) eqn:H;
      [|done].
    apply bool_decide_eq_true in H. by rewrite (Hcommand H). }
  assert (Hnet : (bool_decide (Types.transport config = Some Types.sse)
                  || bool_decide (Types.transport config = Some Types.websocket))
                 && negb (truthy (Types.url config)) = false).
  { destruct (bool_decide (Types.transport config = Some Types.sse)
              || bool_decide (Types.transport config = Some Types.websocket))
      eqn:H; [|done].
    rewrite Hurl; [done|].
    apply orb_true_iff in H as [H|H]; apply bool_decide_eq_true in H; tauto. }
  unfold addMCPServer. rewrite !bool_decide_eq_false_2 by done. cbn [orb].
  rewrite Hstdio, Hnet. unfold bind at 1, gets. cbn [this].
  unfold server_ids in Hfresh. by rewrite Hfresh.
Qed.

Lemma addMCPServer_outcome (config : Types.MCPServerConfig)
  (s : Env AppState) :
  passes_validation config ->
  Types.id config ∉ server_ids (this s) ->
  let '(r, s') := addMCPServer w config s in
  r = (BrowserClient.connect w
         {| this := BrowserClient.new_MCPClient config; history := history s |}).1 /\
  isLoading (this s') = false /\
  match r with
  | Ok _ =>
      mcpServers (this s') =
        mcpServers (this s) ++ [Types.with_isConnected true config] /\
      JsMap.get (Types.id config) (mcpClientManager (this s')) =
        Some {| BrowserClient.config := config;
                BrowserClient.isConnected := true |} /\
      error (this s') = None
  | Throw e =>
      mcpServers (this s') = mcpServers (this s) /\
      mcpClientManager (this s') = mcpClientManager (this s) /\
      availableTools (this s') = availableTools (this s) /\
      error (this s') = Some (message e)
  end.
Proof.
  intros Hvalid Hfresh. rewrite (addMCPServer_checked config s Hvalid Hfresh).
  unfold try_finally, try_catch, bind, set, modify, set_this, gets, throw.
  cbn [this history].
  destruct (on_manager_addServer config
              {| this := set_error None (set_isLoading true (this s));
                 history := history s |})
    as (r & sent & Hr & ->). cbn [history] in Hr.
  destruct r as [[]|e]; cbn [this history].
  - match goal with
    | |- context [refreshMCPTools w ?s1] =>
        destruct (refreshMCPTools_spec w s1) as (tools & sent' & -> & _)
    end.
    cbn. split_and!; try done. apply jsmap_get_set_eq.
  - cbn. by split_and!.
Qed.

(** X27: for a configuration that passes validation and whose id is not yet
    configured, [addMCPServer] follows [connect].  When it resolves, the
    action resolves, the configuration is appended to the server list marked
    connected, its client is registered, [error] is cleared and [isLoading]
    is false again.  When it throws, the action throws the same error, its
    message is stored in [error], [isLoading] is false again, and the server
    list, the client manager and the tool list are as before. *)
Theorem addMCPServer_follows_connect (config : Types.MCPServerConfig)
  (s : Env AppState) :
  passes_validation config ->
  Types.id config ∉ server_ids (this s) ->
  let '(r, s') := addMCPServer w config s in
  r = (BrowserClient.connect w
         {| this := BrowserClient.new_MCPClient config; history := history s |}).1 /\
  isLoading (this s') = false /\
  match r with
  | Ok _ =>
      mcpServers (this s') =
        mcpServers (this s) ++ [Types.with_isConnected true config] /\
      JsMap.get (Types.id config) (mcpClientManager (this s')) =
        Some {| BrowserClient.config := config;
                BrowserClient.isConnected := true |} /\
      error (this s') = None
  | Throw e =>
      mcpServers (this s') = mcpServers (this s) /\
      mcpClientManager (this s') = mcpClientManager (this s) /\
      availableTools (this s') = availableTools (this s) /\
      error (this s') = Some (message e)
  end.
Proof. apply addMCPServer_outcome. Qed.

(** X28: a configuration that fails one of the three validations is
    rejected by its own error before anything else happens: the store is
    untouched ([isLoading] and [error] included) and nothing is sent. *)
Theorem addMCPServer_validates_first (config : Types.MCPServerConfig)
  (s : Env AppState) :
  (Types.id config = EmptyString \/ Types.name config = EmptyString ->
   addMCPServer w config s =
     (Throw (MkError "Server ID and name are required"), s)) /\
  (Types.id config <> EmptyString -> Types.name config <> EmptyString ->
   Types.transport config = Some Types.stdio ->
   truthy (Types.command config) = false ->
   addMCPServer w config s =
     (Throw (MkError "Command is required for stdio transport"), s)) /\
  (Types.id config <> EmptyString -> Types.name config <> EmptyString ->
   (Types.transport config = Some Types.sse \/
    Types.transport config = Some Types.websocket) ->
   truthy (Types.url config) = false ->
   addMCPServer w config s =
     (Throw (MkError "URL is required for SSE/WebSocket transport"), s)).
Proof.
  unfold addMCPServer. split_and!.
  - intros [H|H]; rewrite H; cbn; [done|].
    by destruct (bool_decide (Types.id config = EmptyString)).
  - intros Hid Hname Htransport Hcommand.
    rewrite !bool_decide_eq_false_2 by done. cbn.
    by rewrite Htransport, Hcommand.
  - intros Hid Hname Htransport Hurl.
    rewrite !bool_decide_eq_false_2 by done. cbn. rewrite Hurl.
    by destruct Htransport as [-> | ->].
Qed.

Lemma removeMCPServer_run (serverId : string) (s : Env AppState) :
  exists s',
    removeMCPServer w serverId s = (Ok tt, s') /\
    mcpServers (this s') =
      List.filter (fun c => negb (bool_decide (Types.id c = serverId)))
                  (mcpServers (this s)) /\
    (serverId ∉ server_ids (this s')) /\
    JsMap.get serverId (mcpClientManager (this s')) = None /\
    (forall other, other <> serverId ->
       JsMap.get other (mcpClientManager (this s')) =
       JsMap.get other (mcpClientManager (this s))) /\
    error (this s') = error (this s) /\
    isLoading (this s') = isLoading (this s).
Proof.
  assert (Hids : serverId ∉
            map Types.id (List.filter (fun c => negb (bool_decide (Types.id c = serverId)))
                                      (mcpServers (this s)))).
  { intros (c & -> & Hin)%list_elem_of_fmap.
    apply list_elem_of_In, filter_In in Hin as [_ Hin].
    by rewrite bool_decide_eq_true_2 in Hin. }
  unfold removeMCPServer, try_catch, bind, on_manager, set, modify, set_this, gets.
  rewrite manager_removeServer_run. cbn [this history].
  destruct (JsMap.get serverId (mcpClientManager (this s))) as [client|] eqn:Hget;
    cbv beta iota zeta; cbn [this history];
    match goal with
    | |- context [refreshMCPTools w ?s1] =>
        destruct (refreshMCPTools_spec w s1) as (tools & sent & -> & _)
    end; eexists; (split; [reflexivity|]); cbn; split_and!; try done.
  - apply jsmap_get_delete_eq.
  - intros other Hne. by apply jsmap_get_delete_ne.
Qed.

(** X29: [removeMCPServer] always resolves.  Afterwards no configured server
    and no client has the given id; the other servers are kept, in order;
    [error] and [isLoading] are as before. *)
Theorem removeMCPServer_always_resolves (serverId : string) (s : Env AppState) :
  exists s',
    removeMCPServer w serverId s = (Ok tt, s') /\
    mcpServers (this s') =
      List.filter (fun c => negb (bool_decide (Types.id c = serverId)))
                  (mcpServers (this s)) /\
    (serverId ∉ server_ids (this s')) /\
    JsMap.get serverId (mcpClientManager (this s')) = None /\
    (forall other, other <> serverId ->
       JsMap.get other (mcpClientManager (this s')) =
       JsMap.get other (mcpClientManager (this s))) /\
    error (this s') = error (this s) /\
    isLoading (this s') = isLoading (this s).
Proof. apply removeMCPServer_run. Qed.

Lemma addMCPServer_servers (config : Types.MCPServerConfig) (s : Env AppState) :
  mcpServers (this (addMCPServer w config s).2) = mcpServers (this s) \/
  (mcpServers (this (addMCPServer w config s).2) =
     mcpServers (this s) ++ [Types.with_isConnected true config] /\
   Types.id config ∉ server_ids (this s)).
Proof.
  destruct (decide (Types.id config ∈ server_ids (this s))) as [Hdup|Hfresh].
  - left. unfold addMCPServer.
    destruct (_ || _); [reflexivity|]. destruct (_ && _); [reflexivity|].
    destruct (_ && _); [reflexivity|]. unfold bind at 1, gets. cbn [this].
    destruct (find _ _) eqn:Hfind; [reflexivity|].
    apply find_id_None in Hfind. done.
  - destruct (bool_decide (Types.id config = EmptyString)
              || bool_decide (Types.name config = EmptyString)) eqn:H1.
    { left. unfold addMCPServer. rewrite H1. reflexivity. }
    destruct (bool_decide (Types.transport config = Some Types.stdio)
              && negb (truthy (Types.command config))) eqn:H2.
    { left. unfold addMCPServer. rewrite H1, H2. reflexivity. }
    destruct ((bool_decide (Types.transport config = Some Types.sse)
               || bool_decide (Types.transport config = Some Types.websocket))
              && negb (truthy (Types.url config))) eqn:H3.
    { left. unfold addMCPServer. rewrite H1, H2, H3. reflexivity. }
    assert (Hvalid : passes_validation config).
    { apply orb_false_iff in H1 as [Ha%bool_decide_eq_false Hb%bool_decide_eq_false].
      split_and!; try done.
      - intros Ht. rewrite bool_decide_eq_true_2 in H2 by done.
        by destruct (truthy (Types.command config)).
      - intros Ht.
        assert (Hb' : bool_decide (Types.transport config = Some Types.sse)
                      || bool_decide (Types.transport config = Some Types.websocket)
                      = true).
        { destruct Ht as [Ht|Ht]; rewrite Ht; by cbn. }
        rewrite Hb' in H3. by destruct (truthy (Types.url config)). }
    pose proof (addMCPServer_outcome config s Hvalid Hfresh) as H.
    destruct (addMCPServer w config s) as [[[]|e] s']; cbn in *.
    + destruct H as (_ & _ & Hservers & _). right. by split.
    + destruct H as (_ & _ & Hservers & _). by left.
Qed.

Lemma NoDup_ids_filter (f : Types.MCPServerConfig -> bool)
  (servers : list Types.MCPServerConfig) :
  NoDup (map Types.id servers) -> NoDup (map Types.id (List.filter f servers)).
Proof.
  induction servers as [|server rest IH]; cbn; [done|].
  rewrite NoDup_cons. intros [Hnin Hnd]. destruct (f server); cbn; [|by apply IH].
  apply NoDup_cons. split; [|by apply IH].
  intros (c & Hc & Hin)%list_elem_of_fmap. apply Hnin.
  apply list_elem_of_fmap. exists c. split; [done|].
  apply list_elem_of_In. apply list_elem_of_In, filter_In in Hin. tauto.
Qed.

Lemma toggleMCPServer_ids (serverId : string) (s : Env AppState) :
  server_ids (this (toggleMCPServer w serverId s).2) = server_ids (this s).
Proof.
  unfold toggleMCPServer, bind, gets, set, modify, set_this. cbn [this history].
  match goal with
  | |- context [refreshMCPTools w ?s1] =>
      destruct (refreshMCPTools_spec w s1) as (tools & sent & -> & _)
  end.
  unfold server_ids. cbn. rewrite map_map. apply map_ext.
  intros server. by destruct (bool_decide (Types.id server = serverId)).
Qed.

(** X30: the ids of the configured servers stay pairwise distinct: if they
    are before [addMCPServer], [removeMCPServer] or [toggleMCPServer], they
    are afterwards, however the action ends; [toggleMCPServer] leaves the
    list of ids as it is. *)
Theorem store_ids_stay_unique (s : Env AppState) :
  NoDup (server_ids (this s)) ->
  (forall config, NoDup (server_ids (this (addMCPServer w config s).2))) /\
  (forall serverId, NoDup (server_ids (this (removeMCPServer w serverId s).2))) /\
  (forall serverId,
     server_ids (this (toggleMCPServer w serverId s).2) = server_ids (this s)).
Proof.
  intros Hnd. split_and!.
  - intros config. unfold server_ids in *.
    destruct (addMCPServer_servers config s) as [->|[-> Hfresh]]; [done|].
    rewrite map_app. cbn. apply NoDup_app. split_and!; [done | | apply NoDup_singleton].
    intros x Hx ->%list_elem_of_singleton. by apply Hfresh.
  - intros serverId.
    destruct (removeMCPServer_run serverId s) as (s' & -> & Hservers & _).
    unfold server_ids in *. cbn. rewrite Hservers. by apply NoDup_ids_filter.
  - intros serverId. apply toggleMCPServer_ids.
Qed.

End StoreLifeCycle.

Lemma refreshMCPTools_empty_iff_nothing_connected_witness :
  exists sent,
    Store.refreshMCPTools BrowserScenario.offline MoreScenarios.empty_store =
      (Ok tt, {| this := Store.set_availableTools []
                           (this MoreScenarios.empty_store);
                 history := sent |}) /\
    sent = [].
Proof.
  destruct (refreshMCPTools_empty_iff_nothing_connected BrowserScenario.offline
              MoreScenarios.empty_store)
    as (tools & sent & Hrun & Hempty & Hsent & _).
  exists sent. rewrite (proj2 Hempty (Forall_nil_2 _)) in Hrun.
  split; [exact Hrun | exact (Hsent (Forall_nil_2 _))].
Defined.

Lemma socket_server_passes_validation :
  StoreChecks.passes_validation MoreScenarios.socket_server.
Proof. split_and!; try done. Qed.

Lemma addMCPServer_follows_connect_witness :
  let '(r, s') :=
    Store.addMCPServer BrowserScenario.offline MoreScenarios.socket_server
      MoreScenarios.empty_store in
  r = Ok tt /\
  Store.mcpServers (this s') =
    [Types.with_isConnected true MoreScenarios.socket_server] /\
  Store.isLoading (this s') = false /\
  Store.error (this s') = None.
Proof.
  pose proof (addMCPServer_follows_connect BrowserScenario.offline
                MoreScenarios.socket_server MoreScenarios.empty_store
                socket_server_passes_validation (not_elem_of_nil _)) as H.
  destruct (Store.addMCPServer BrowserScenario.offline MoreScenarios.socket_server
              MoreScenarios.empty_store) as [r s'].
  destruct H as (Hr & Hloading & Hmatch). cbn in Hr. subst r.
  destruct Hmatch as (Hservers & _ & Herror). by split_and!.
Defined.

Lemma addMCPServer_validates_first_witness :
  Store.addMCPServer BrowserScenario.offline
    (Types.with_isConnected false
       {| Types.id := "realtime"; Types.name := "Realtime Tools";
          Types.transport := Some Types.websocket;
          Types.command := None; Types.args := None; Types.env := None;
          Types.url := None; Types.headers := None; Types.description := None;
          Types.isConnected := false; Types.capabilities := None |})
    BrowserScenario.store =
    (Throw (MkError "URL is required for SSE/WebSocket transport"),
     BrowserScenario.store).
Proof.
  apply (addMCPServer_validates_first BrowserScenario.offline); try done.
  by right.
Defined.

Lemma removeMCPServer_always_resolves_witness :
  exists s',
    Store.removeMCPServer BrowserScenario.offline "demo-server-1"
      BrowserScenario.store = (Ok tt, s') /\
    Store.mcpServers (this s') = [BrowserScenario.events_server] /\
    JsMap.get "demo-server-1" (Store.mcpClientManager (this s')) = None.
Proof.
  destruct (removeMCPServer_always_resolves BrowserScenario.offline
              "demo-server-1" BrowserScenario.store)
    as (s' & Hrun & Hservers & _ & Hgone & _).
  exists s'. by split_and!.
Defined.

Lemma store_ids_stay_unique_witness :
  NoDup (StoreChecks.server_ids
           (this (Store.addMCPServer BrowserScenario.offline
                    MoreScenarios.socket_server BrowserScenario.store).2)) /\
  StoreChecks.server_ids
    (this (Store.toggleMCPServer BrowserScenario.offline "demo-server-2"
             BrowserScenario.store).2) = ["demo-server-1"; "demo-server-2"].
Proof.
  assert (Hnd : NoDup (StoreChecks.server_ids (this BrowserScenario.store))).
  { unfold StoreChecks.server_ids. cbn. apply NoDup_cons. split.
    - intros H%list_elem_of_singleton. discriminate H.
    - apply NoDup_singleton. }
  destruct (store_ids_stay_unique BrowserScenario.offline BrowserScenario.store Hnd)
    as (Hadd & _ & Htoggle).
  split; [apply Hadd | apply Htoggle].
Defined.

(** ** A failed [addServer] and the child it may leave *)
Section FailedAddServer.
Import ServerManager ManagerQueries Processes.
Context (pw : ProcessWorld).





End FailedAddServer.



(** The process model on the successful path: the child of a stored session
    runs and is owned; removing the session closes it. *)
Example add_then_remove_leaves_no_child :
  let pw := {| Processes.sdk := Scenario.healthy;
               Processes.child_survives_failed_connect := fun _ _ => false |} in
  Processes.running pw (ServerManager.trace Scenario.with_files) = [1] /\
  Processes.orphans pw Scenario.with_files = [] /\
  Processes.running pw
    (ServerManager.trace
       (ServerManager.removeServer Scenario.healthy "files" Scenario.with_files).2)
    = [].
Proof. vm_compute. by split_and!. Qed.
